(** * Rag-skincare: a shallow embedding of [streamlit_app.py]

    The script is a Streamlit page: every user interaction re-executes the
    whole file against the per-session dictionary [st.session_state].  The
    embedding keeps the script's own structure:

    - Python values that the script inspects are inductive types
      ([pyval] for payload fields, [sval] for session entries);
    - dictionaries are [gmap string _];
    - statements run in a small state-and-exception monad [M] whose state
      holds the session dictionary, the module global [limit_k], the
      trace of calls that leave the script (external services and [st.*])
      and a log of the exceptions raised;
    - what the script obtains from outside is a parameter: the
      [deployment] (secrets, database client) is fixed for the process,
      the [world] (answers of the hosted services) may differ from pass
      to pass;
    - the generator [generate_answer] is a resumable computation
      ([generator]) that the [for] loop of the page pulls from;
    - [format_context], which the script defines and never calls, is
      embedded as a function of the records' values and, for what a call
      does to the list it is handed, over a store of objects. *)

From Stdlib Require Import PrimFloat Ascii.
From stdpp Require Import gmap strings list fin_maps pretty.

Local Open Scope string_scope.
Set Warnings "-register-all,-inexact-float".

(** ** Python values *)

(** Exceptions.  [except Exception] only handles instances of [Exception];
    a bare [except:] handles every [BaseException], which includes
    Streamlit's script-control exceptions raised by [st.stop] and
    [st.rerun]. *)
Inductive exn_class :=
| ClsException      (* instance of Exception *)
| ClsBase           (* BaseException only: KeyboardInterrupt, SystemExit, ... *)
| ClsStop           (* raised by st.stop() *)
| ClsRerun.         (* raised by st.rerun() *)

Record exn := mkExn { exn_class_of : exn_class; exn_str : string }.

Definition is_Exception (e : exn) : bool :=
  match exn_class_of e with ClsException => true | _ => false end.

Definition IndexError : exn := mkExn ClsException "list index out of range".
Definition AttributeError (what : string) : exn := mkExn ClsException what.
Definition KeyError (k : string) : exn := mkExn ClsException ("'" ++ k ++ "'").

(** What a call returns to its caller. *)
Inductive outcome (A : Type) :=
| Returns (a : A)
| Raises (e : exn).
Arguments Returns {A} a.
Arguments Raises {A} e.

(** Field values of a product payload (JSON scalars). *)
Inductive pyval :=
| PNone
| PBool (b : bool)
| PInt (z : Z)
| PStr (s : string).

(** [str(v)], which an f-string applies to each interpolated value. *)
Definition py_str (v : pyval) : string :=
  match v with
  | PNone => "None"
  | PBool true => "True"
  | PBool false => "False"
  | PInt z => pretty z
  | PStr s => s
  end.

(** A payload is a [dict] with string keys. *)
Abbreviation doc := (gmap string pyval).

(** ** Data model of the page *)

Inductive role := user | assistant.

(** [{"role": ..., "content": ...}] *)
Record turn := mkTurn { turn_role : role; content : string }.

#[global] Instance role_eq_dec : EqDecision role.
Proof. solve_decision. Defined.

#[global] Instance turn_eq_dec : EqDecision turn.
Proof. solve_decision. Defined.

(** Entries of [st.session_state]. *)
Inductive sval :=
| SBool (b : bool)
| SMessages (l : list turn)
| SText (s : string).

Definition truthy_sval (v : sval) : bool :=
  match v with
  | SBool b => b
  | SMessages l => negb (bool_decide (l = []))
  | SText s => negb (bool_decide (s = ""))
  end.

(** ** External collaborators *)

Abbreviation vector := (list float).

(** Request of [client.models.embed_content]. *)
Record embed_request := mkEmbedRequest {
  er_model : string;
  er_contents : list string;
  er_outputDimensionality : Z;
  er_task_type : string
}.

(** Request of [qdrant_client.search]. *)
Record search_request := mkSearchRequest {
  sr_collection_name : string;
  sr_query_vector : option vector;
  sr_query_filter : option string;
  sr_limit : Z;
  sr_score_threshold : float;
  sr_hnsw_ef : Z;
  sr_exact : bool;
  sr_with_payload : bool;
  sr_with_vectors : bool
}.

(** One hit of the index. *)
Record scored_point := mkScoredPoint {
  payload : doc;
  score : float;
  sp_vector : vector
}.

(** A chunk of the completion stream: [chunk.choices[0].delta.content]. *)
Record delta := mkDelta { delta_content : option string }.
Record choice := mkChoice { choice_delta : delta }.
Record chunk := mkChunk { choices : list choice }.

(** What reading the stream once produces; the stream ends when the list
    does. *)
Abbreviation stream := (list (outcome chunk)).

Record completion_request := mkCompletionRequest {
  cr_model : string;
  cr_messages : list (string * string);   (* role, content *)
  cr_stream : bool
}.

(** Everything a render pass obtains from outside the script: the three
    hosted services, the two cached client constructors, and the
    interpreter's [repr] of the record list, which the prompt embeds. *)
Record world := mkWorld {
  get_genai_client_result : outcome unit;
  embed_content : embed_request -> outcome (list (option vector));
  qdrant_search : search_request -> outcome (list scored_point);
  get_together_client_result : outcome unit;
  completions_create : completion_request -> outcome stream;
  repr_docs : list doc -> string
}.

(** What the deployment provides and the script reads before anything
    else: the secrets and the vector-database client built from them.
    Constant for the process.  Reading a secret the deployment does not
    provide raises an exception of the framework: a [KeyError] carrying
    the framework's own message when the key is missing, a
    [StreamlitSecretNotFoundError] when no secrets are configured at
    all.  Both derive from [Exception]; which one it is and what it says
    is the framework's business, recorded here as [secret_error]. *)
Record deployment := mkDeployment {
  secrets : gmap string string;            (* st.secrets *)
  secret_error : string -> string;         (* text of the error for a key
                                              st.secrets cannot deliver *)
  qdrant_client_result : outcome unit      (* QdrantClient(...) *)
}.

(** Calls that leave the script, in the order they happen: to the
    services, to the framework's display functions, and to the list of
    turns the session holds ([append], the one call that changes it). *)
Inductive event :=
| EvQdrantClient (url api_key : string) (prefer_grpc : bool) (timeout : float)
| EvGenaiClient
| EvEmbed (rq : embed_request)
| EvSearch (rq : search_request)
| EvTogetherClient
| EvCompletion (rq : completion_request)
| EvStreamRead
| EvSetPageConfig (page_title layout : string)
| EvTitle (s : string)
| EvMarkdown (body : string) (unsafe_allow_html : bool)
| EvCaption (s : string)
| EvError (s : string)
| EvForm (key : string)
| EvTextInput (label key placeholder : string)
| EvSubmitButton (label : string)
| EvButton (label : string)
| EvChatMessage (name : string)
| EvSpinner (s : string)
| EvHistoryAppend (t : turn).

(** ** The script monad *)

Record machine := mkMachine {
  session_state : gmap string sval;   (* st.session_state: the entries
                                         the script writes *)
  limit_k : option Z;                 (* the module global limit_k *)
  trace : list event;                 (* calls made so far *)
  raised : list exn                   (* ghost: every exception raised so far,
                                         caught or not; never read *)
}.

Definition M (A : Type) : Type := machine -> outcome A * machine.

Definition ret {A} (a : A) : M A := fun m => (Returns a, m).

Definition bind {A B} (c : M A) (k : A -> M B) : M B :=
  fun m =>
    match c m with
    | (Returns a, m') => k a m'
    | (Raises e, m') => (Raises e, m')
    end.

Definition raise {A} (e : exn) : M A :=
  fun m => (Raises e,
            mkMachine (session_state m) (limit_k m) (trace m) (raised m ++ [e])).

Declare Scope script_scope.
Delimit Scope script_scope with script.
Notation "x <- c ;; k" := (bind c (fun x => k))
  (at level 100, c at next level, right associativity) : script_scope.
Notation "c ;; k" := (bind c (fun _ => k))
  (at level 100, right associativity) : script_scope.
Local Open Scope script_scope.

(** [try: body  except Exception as e: handler e] *)
Definition try_except_Exception {A} (body : M A) (handler : exn -> M A) : M A :=
  fun m =>
    match body m with
    | (Returns a, m') => (Returns a, m')
    | (Raises e, m') => if is_Exception e then handler e m' else (Raises e, m')
    end.

(** [try: body  except: handler] *)
Definition try_except {A} (body : M A) (handler : M A) : M A :=
  fun m =>
    match body m with
    | (Returns a, m') => (Returns a, m')
    | (Raises _, m') => handler m'
    end.

Definition emit (ev : event) : M unit :=
  fun m => (Returns tt,
            mkMachine (session_state m) (limit_k m) (trace m ++ [ev]) (raised m)).

(** A call to a collaborator: recorded, then its outcome delivered. *)
Definition call {A} (ev : event) (r : outcome A) : M A :=
  emit ev ;; match r with Returns a => ret a | Raises e => raise e end.

(** A generator: each resumption runs the body up to the next [yield]
    (delivering the value and the rest of the body) or to its end. *)
Inductive gen_step (A G : Type) :=
| Yielded (a : A) (rest : G)
| Finished.
Arguments Yielded {A G} a rest.
Arguments Finished {A G}.

Inductive generator (A : Type) :=
| Gen (resume : machine -> outcome (gen_step A (generator A)) * machine).
Arguments Gen {A} resume.

Definition resume {A} (g : generator A) : M (gen_step A (generator A)) :=
  match g with Gen r => r end.

(** Pulling a generator until it ends: the values it yielded, in order,
    and how it ended. *)
Fixpoint pull_all {A} (g : generator A) (m : machine) {struct g}
  : list A * outcome unit * machine :=
  match g with
  | Gen r =>
      match r m with
      | (Returns (Yielded a rest), m') =>
          match pull_all rest m' with
          | (ys, ending, m'') => (a :: ys, ending, m'')
          end
      | (Returns Finished, m') => ([], Returns tt, m')
      | (Raises e, m') => ([], Raises e, m')
      end
  end.

(** [for x in g: acc = body acc x], returning the final accumulator. *)
Fixpoint for_generator {A S} (g : generator A) (body : S -> A -> S) (acc : S)
  (m : machine) {struct g} : outcome S * machine :=
  match g with
  | Gen r =>
      match r m with
      | (Returns (Yielded a rest), m') => for_generator rest body (body acc a) m'
      | (Returns Finished, m') => (Returns acc, m')
      | (Raises e, m') => (Raises e, m')
      end
  end.

(** ** Constants of the script *)

Definition nl : string := String (Ascii.ascii_of_nat 10) EmptyString.
Definition dq : string := String (Ascii.ascii_of_nat 34) EmptyString.

Definition COLLECTION_NAME : string := "RAG_Skincare".
Definition EMBEDDING_MODEL : string := "text-embedding-004".

(** The string yielded for an empty record list (line 88) and the one
    assigned by the page's [except:] (line 172). *)
Definition no_info_message : string :=
  "Maaf, saya tidak menemukan informasi relevan.".
Definition apology_message : string :=
  "Maaf, saya tidak menemukan informasi relevan.".

(** ** Utilities *)

Definition st_error (s : string) : M unit := emit (EvError s).

(** [xs[0]] *)
Definition index0 {A} (xs : list A) : M A :=
  match xs with
  | x :: _ => ret x
  | [] => raise IndexError
  end.

Definition get_genai_client (w : world) : M unit :=
  call EvGenaiClient (get_genai_client_result w).

Definition get_together_client (w : world) : M unit :=
  call EvTogetherClient (get_together_client_result w).

Definition embed_text (w : world) (text : string) : M (option vector) :=
  try_except_Exception
    (client <- get_genai_client w ;;
     let rq := mkEmbedRequest EMBEDDING_MODEL [text] 1536 "RETRIEVAL_DOCUMENT" in
     response <- call (EvEmbed rq) (embed_content w rq) ;;
     first <- index0 response ;;
     ret first)
    (fun e =>
       st_error ("⚠️ Gagal membuat embedding: " ++ exn_str e) ;;
       ret None).

(** [not embedding]: [None] and the empty list are both falsy. *)
Definition not_embedding (embedding : option vector) : bool :=
  match embedding with
  | None => true
  | Some [] => true
  | Some (_ :: _) => false
  end.

Definition set_limit_k (k : Z) : M unit :=
  fun m => (Returns tt,
            mkMachine (session_state m) (Some k) (trace m) (raised m)).

Definition get_limit_k : M Z :=
  fun m => match limit_k m with
           | Some k => ret k m
           | None => raise (mkExn ClsException "name 'limit_k' is not defined") m
           end.

Definition retrieve_documents (w : world) (query : string) : M (list doc) :=
  embedding <- embed_text w query ;;
  if not_embedding embedding then ret []
  else
    let hnsw_ef := 512%Z in
    let exact := true in
    set_limit_k 8 ;;
    try_except_Exception
      (k <- get_limit_k ;;
       let rq := mkSearchRequest COLLECTION_NAME embedding None k
                   0.7%float hnsw_ef exact true true in
       results <- call (EvSearch rq) (qdrant_search w rq) ;;
       ret (map payload results))
      (fun e =>
         st_error ("❌ Gagal mengambil dokumen: " ++ exn_str e) ;;
         ret []).

(** [doc.get(key, fallback)] inside an f-string. *)
Definition get_str (d : doc) (key fallback : string) : string :=
  match d !! key with
  | Some v => py_str v
  | None => fallback
  end.

Definition format_line (d : doc) : string :=
  "- " ++ get_str d "product_name" "Tanpa Nama" ++ ", " ++
  get_str d "description" "" ++ " (Gambar: " ++
  get_str d "product_image_link" "-" ++ ")".

(** [sep.join(parts)] *)
Fixpoint join (sep : string) (parts : list string) : string :=
  match parts with
  | [] => ""
  | [p] => p
  | p :: rest => p ++ sep ++ join sep rest
  end.

Definition format_context (docs : list doc) : string :=
  join nl (map format_line docs).

Definition build_prompt (w : world) (query : string) (docs : list doc) : string :=
  "Gunakan informasi di bawah ini untuk menjawab pertanyaan pengguna seakurat mungkin. selalu sertakan product_image_link agar user dapat mengakses gambar product:"
  ++ nl ++ nl ++ repr_docs w docs ++ nl ++ nl ++
  "Pertanyaan: " ++ query ++ nl ++ nl ++
  "Jawaban yang akurat dan alami:".

(** [x or ""] for an optional string. *)
Definition or_empty (x : option string) : string :=
  match x with
  | Some s => if bool_decide (s = "") then "" else s
  | None => ""
  end.

(** The [for chunk in stream] loop of [generate_answer]. *)
Fixpoint stream_loop (stream : stream) (response : string) : generator string :=
  Gen (match stream with
       | [] => emit EvStreamRead ;; ret Finished
       | item :: rest =>
           chunk <- call EvStreamRead item ;;
           first <- index0 (choices chunk) ;;
           let content := or_empty (delta_content (choice_delta first)) in
           let response := response ++ content in
           ret (Yielded content (stream_loop rest response))
       end).

Definition generate_answer (w : world) (query : string) (docs : list doc)
  : generator string :=
  Gen (if bool_decide (docs = [])
       then ret (Yielded no_info_message (Gen (ret Finished)))
       else
         let prompt := build_prompt w query docs in
         client <- get_together_client w ;;
         let rq := mkCompletionRequest
                     "meta-llama/Llama-3.3-70B-Instruct-Turbo-Free"
                     [("user", prompt)] true in
         stream <- call (EvCompletion rq) (completions_create w rq) ;;
         let response := "" in
         resume (stream_loop stream response)).

(** ** Streamlit primitives used by the page *)

(** What the user did to trigger this render pass.  A form delivers its
    text only in the pass where its own "Kirim" button was pressed. *)
Inductive interaction :=
| NoInteraction
| FormSubmit (i : nat) (text : string)
| ExitPressed.

Definition st_markdown (body : string) (unsafe_allow_html : bool) : M unit :=
  emit (EvMarkdown body unsafe_allow_html).

Definition st_stop {A} : M A := raise (mkExn ClsStop "").
Definition st_rerun {A} : M A := raise (mkExn ClsRerun "").

(** [st.text_input] and [st.form_submit_button]: the call and what it
    hands back.  The entries the framework keeps for keyed widgets in
    [st.session_state] (the value of [input_i], the state of the form's
    button) are the framework's and never read by the script; the session
    of the model holds the entries the script itself writes, "messages"
    and "exited". *)
Definition st_text_input (ui : interaction) (i : nat) : M string :=
  emit (EvTextInput "📝 Pertanyaan:" ("input_" ++ pretty i)
          "Tulis pertanyaan Anda di sini...") ;;
  ret (match ui with
       | FormSubmit j text => if bool_decide (j = i) then text else ""
       | _ => ""
       end).

Definition st_form_submit_button (ui : interaction) (i : nat) : M bool :=
  emit (EvSubmitButton "Kirim") ;;
  ret (match ui with
       | FormSubmit j _ => bool_decide (j = i)
       | _ => false
       end).

Definition st_button (ui : interaction) (label : string) : M bool :=
  emit (EvButton label) ;;
  ret (match ui with ExitPressed => true | _ => false end).

(** [key in st.session_state] *)
Definition session_contains (key : string) : M bool :=
  fun m => (Returns (bool_decide (is_Some (session_state m !! key))), m).

(** [st.session_state[key]].  The script reads a key this way only after
    finding it present (line 115), so the error for an absent key, whose
    text is the framework's, is never raised by a pass. *)
Definition session_get (key : string) : M sval :=
  fun m => match session_state m !! key with
           | Some v => ret v m
           | None => raise (KeyError key) m
           end.

(** [st.session_state[key] = v] *)
Definition session_set (key : string) (v : sval) : M unit :=
  fun m => (Returns tt,
            mkMachine (<[key := v]> (session_state m)) (limit_k m) (trace m)
              (raised m)).

(** [st.session_state.clear()] *)
Definition session_clear : M unit :=
  fun m => (Returns tt, mkMachine ∅ (limit_k m) (trace m) (raised m)).

(** [st.session_state.messages], used as a list. *)
Definition get_messages : M (list turn) :=
  fun m => match session_state m !! "messages" with
           | Some (SMessages l) => ret l m
           | Some _ => raise (AttributeError "messages is not a list") m
           | None => raise (AttributeError "st.session_state has no attribute 'messages'") m
           end.

(** [st.session_state.messages.append(t)]: the list the session holds
    gets [t] at its end, and the call is on record. *)
Definition messages_append (t : turn) : M unit :=
  l <- get_messages ;;
  session_set "messages" (SMessages (l ++ [t])) ;;
  emit (EvHistoryAppend t).

(** [for i in range(n): body i] *)
Fixpoint for_range (indices : list nat) (body : nat -> M unit) : M unit :=
  match indices with
  | [] => ret tt
  | i :: rest => body i ;; for_range rest body
  end.

(** ** Texts of the page *)

Definition closing_message : string :=
  "## 🙏 Terima Kasih Telah Menggunakan Chatbot RAG Produk Skincare".

Definition intro_message : string :=
  "Masukkan pertanyaan seputar **produk skincare** dan sistem akan memberikan jawaban berdasarkan pengetahuan yang relevan.".

Definition spaces (n : nat) : string := String.concat "" (replicate n " ").

Definition autofocus_script (i : nat) : string :=
  nl ++
  spaces 12 ++ "<script>" ++ nl ++
  spaces 12 ++ "setTimeout(function(){" ++ nl ++
  spaces 16 ++ "var input = window.parent.document.querySelector('input[id="
            ++ dq ++ "input_" ++ pretty i ++ dq ++ "]');" ++ nl ++
  spaces 16 ++ "if (input) {" ++ nl ++
  spaces 20 ++ "input.focus();" ++ nl ++
  spaces 16 ++ "}" ++ nl ++
  spaces 12 ++ "}, 100);" ++ nl ++
  spaces 12 ++ "</script>" ++ nl ++
  spaces 8.

Definition autoscroll_script : string :=
  nl ++
  "<script>" ++ nl ++
  "setTimeout(function() {" ++ nl ++
  "    var last = window.parent.document.getElementById("
    ++ dq ++ "last-message" ++ dq ++ ");" ++ nl ++
  "    if (last) {" ++ nl ++
  "        last.scrollIntoView({behavior: 'smooth', block: 'start'});" ++ nl ++
  "    }" ++ nl ++
  "}, 100);" ++ nl ++
  "</script>" ++ nl.

Definition last_message_div (text : string) : string :=
  "<div id=" ++ dq ++ "last-message" ++ dq ++ ">" ++ text ++ "</div>".

(** ** The page *)

(** [st.secrets[key]] *)
Definition secret (cfg : deployment) (key : string) : M string :=
  match secrets cfg !! key with
  | Some v => ret v
  | None => raise (mkExn ClsException (secret_error cfg key))
  end.

(** Lines 14-28, "Environment Setup". *)
Definition environment_setup (cfg : deployment) : M unit :=
  google_api_key <- secret cfg "google_api_key" ;;
  qdrant_api_key <- secret cfg "qdrant_api_key" ;;
  together_api_key <- secret cfg "together_api_key" ;;
  QDRANT_URL <- secret cfg "QDRANT_URL" ;;
  call (EvQdrantClient QDRANT_URL qdrant_api_key true 120%float)
    (qdrant_client_result cfg).

(** Lines 166-172: the per-turn pipeline under the bare [except:]. *)
Definition answer_turn (w : world) (user_input : string) : M string :=
  try_except
    (docs <- retrieve_documents w user_input ;;
     let response_text := "" in
     for_generator (generate_answer w user_input docs)
       (fun response_text chunk => response_text ++ chunk) response_text)
    (ret apology_message).

(** Lines 161-165: what the submitted branch does before the pipeline. *)
Definition save_user_message (user_input : string) : M unit :=
  messages_append (mkTurn user user_input) ;;
  emit (EvChatMessage "assistant") ;;
  emit (EvSpinner "🔍 Mencari jawaban...").

(** Lines 159-177: the body of [if submitted and user_input]. *)
Definition submitted_branch (w : world) (user_input : string) : M unit :=
  save_user_message user_input ;;
  response_text <- answer_turn w user_input ;;
  st_markdown (last_message_div response_text) true ;;
  messages_append (mkTurn assistant response_text) ;;
  st_rerun.

(** [lst[idx]["content"]] *)
Definition content_at (l : list turn) (idx : nat) : M string :=
  match l !! idx with
  | Some t => ret (content t)
  | None => raise IndexError
  end.

(** Lines 134-190: one iteration of the conversation loop. *)
Definition loop_body (w : world) (ui : interaction) (i : nat) : M unit :=
  messages <- get_messages ;;
  let is_last_input := bool_decide (i = length messages / 2) in
  emit (EvForm ("chat_form_" ++ pretty i)) ;;
  user_input <- st_text_input ui i ;;
  submitted <- st_form_submit_button ui i ;;
  (if is_last_input then st_markdown (autofocus_script i) true else ret tt) ;;
  (if submitted && negb (bool_decide (user_input = ""))
   then submitted_branch w user_input
   else ret tt) ;;
  let idx := i * 2 in
  messages <- get_messages ;;
  (if bool_decide (idx < length messages)
   then emit (EvChatMessage "user") ;;
        c <- content_at messages idx ;;
        st_markdown c false
   else ret tt) ;;
  messages <- get_messages ;;
  (if bool_decide (idx + 1 < length messages)
   then emit (EvChatMessage "assistant") ;;
        if bool_decide (Z.of_nat i = (Z.of_nat (length messages) `div` 2 - 1)%Z)
        then c <- content_at messages (idx + 1) ;;
             st_markdown (last_message_div c) true
        else c <- content_at messages (idx + 1) ;;
             st_markdown c false
   else ret tt).

(** Lines 115-117, "Exit State Handler". *)
Definition exit_state_handler : M unit :=
  has_flag <- session_contains "exited" ;;
  exited <- (if has_flag
             then v <- session_get "exited" ;; ret (truthy_sval v)
             else ret false) ;;
  if exited
  then st_markdown closing_message false ;; st_stop
  else ret tt.

(** Lines 122-124, "Page Config". *)
Definition page_config : M unit :=
  emit (EvSetPageConfig "💊 Chatbot RAG Produk Skincare" "wide") ;;
  emit (EvTitle "💬 Chatbot RAG Produk Skincare") ;;
  st_markdown intro_message false.

(** Lines 127-128, "Initialize session state". *)
Definition initialize_session_state : M unit :=
  has_messages <- session_contains "messages" ;;
  if negb has_messages
  then session_set "messages" (SMessages [])
  else ret tt.

(** Lines 133-190, "Conversation Loop"; the range is computed once. *)
Definition conversation_loop (w : world) (ui : interaction) : M unit :=
  messages <- get_messages ;;
  for_range (seq 0 (length messages / 2 + 1)) (loop_body w ui).

(** Lines 195-198, "Exit Button". *)
Definition exit_button (ui : interaction) : M unit :=
  clicked <- st_button ui "❌ Exit" ;;
  if clicked
  then session_clear ;;
       session_set "exited" (SBool true) ;;
       st_rerun
  else ret tt.

(** Lines 203-215, "Auto-Scroll to Last Message" and the footer. *)
Definition auto_scroll_and_footer : M unit :=
  st_markdown autoscroll_script true ;;
  emit (EvCaption "🧠 Creator : Hafiz Pambudi").

(** The statements the script executes on a render pass. *)
Definition page (cfg : deployment) (w : world) (ui : interaction) : M unit :=
  environment_setup cfg ;;
  exit_state_handler ;;
  page_config ;;
  initialize_session_state ;;
  conversation_loop w ui ;;
  exit_button ui ;;
  auto_scroll_and_footer.

(** How a render pass ended. *)
Inductive pass_end :=
| Completed                  (* ran to the last line *)
| Stopped                    (* st.stop() *)
| RerunRequested             (* st.rerun() *)
| Crashed (e : exn).         (* uncaught exception, shown by the framework *)

Record pass_result := mkPassResult {
  pass_session : gmap string sval;   (* the session it leaves *)
  pass_trace : list event;           (* every call it made *)
  pass_ended : pass_end
}.

(** The [st.*] calls that put something on the page. *)
Definition is_display (ev : event) : bool :=
  match ev with
  | EvQdrantClient _ _ _ _ | EvGenaiClient | EvEmbed _ | EvSearch _
  | EvTogetherClient | EvCompletion _ | EvStreamRead
  | EvHistoryAppend _ => false
  | _ => true
  end.

(** What a pass rendered. *)
Definition rendered (r : pass_result) : list event :=
  List.filter is_display (pass_trace r).

(** One render pass: the script runs from its first line with fresh module
    globals against the session dictionary it is handed. *)
Definition render_pass (cfg : deployment) (w : world) (ui : interaction)
  (session : gmap string sval) : pass_result :=
  match page cfg w ui (mkMachine session None [] []) with
  | (r, m) =>
      mkPassResult (session_state m) (trace m)
        (match r with
         | Returns _ => Completed
         | Raises e =>
             match exn_class_of e with
             | ClsStop => Stopped
             | ClsRerun => RerunRequested
             | _ => Crashed e
             end
         end)
  end.

(** ** Observations on traces *)

Definition is_search (ev : event) : bool :=
  match ev with EvSearch _ => true | _ => false end.

(** Number of requests sent to the vector index. *)
Definition search_calls (t : list event) : nat :=
  length (List.filter is_search t).

(** The turns a trace records as appended to the history, in the order of
    the calls. *)
Definition appended (t : list event) : list turn :=
  omap (fun ev => match ev with EvHistoryAppend t => Some t | _ => None end) t.

(** The fragment the generator yields for a chunk it could read. *)
Definition chunk_fragment (ch : chunk) : string :=
  match choices ch with
  | first :: _ => or_empty (delta_content (choice_delta first))
  | [] => ""
  end.

(** ** Sessions *)

(** The text a pass delivers to the submitted branch of form [i], if any:
    [submitted and user_input] on line 159. *)
Definition submits_at (ui : interaction) (i : nat) : option string :=
  match ui with
  | FormSubmit j text =>
      if bool_decide (j = i) && negb (bool_decide (text = ""))
      then Some text else None
  | _ => None
  end.

(** ["exited" in st.session_state and st.session_state["exited"]] *)
Definition exited_flag (s : gmap string sval) : bool :=
  match s !! "exited" with
  | Some v => truthy_sval v
  | None => false
  end.

(** The turn history a session holds. *)
Definition history (s : gmap string sval) : list turn :=
  match s !! "messages" with
  | Some (SMessages l) => l
  | _ => []
  end.

(** The [messages] entry, when present, is a list of turns. *)
Definition messages_ok (s : gmap string sval) : Prop :=
  match s !! "messages" with
  | Some (SMessages _) | None => True
  | Some _ => False
  end.

(** User turns at even indices, assistant turns at odd ones. *)
Definition alternating (l : list turn) : Prop :=
  forall i t, l !! i = Some t ->
    turn_role t = if Nat.even i then user else assistant.

(** Sessions the page can be in between render passes: a new session
    starts empty, and every pass (whatever the user did, whatever the
    services answered) leads to the next one. *)
Inductive reachable (cfg : deployment) : gmap string sval -> Prop :=
| reachable_new : reachable cfg ∅
| reachable_pass s w ui :
    reachable cfg s -> reachable cfg (pass_session (render_pass cfg w ui s)).

(** The session after a sequence of render passes. *)
Fixpoint session_after (cfg : deployment) (s : gmap string sval)
  (passes : list (world * interaction)) : gmap string sval :=
  match passes with
  | [] => s
  | (w, ui) :: rest =>
      session_after cfg (pass_session (render_pass cfg w ui s)) rest
  end.

(** The deployment is configured: the four secrets exist and the
    vector-database client can be built. *)
Definition deployment_ok (cfg : deployment) : Prop :=
  is_Some (secrets cfg !! "google_api_key") /\
  is_Some (secrets cfg !! "qdrant_api_key") /\
  is_Some (secrets cfg !! "together_api_key") /\
  is_Some (secrets cfg !! "QDRANT_URL") /\
  qdrant_client_result cfg = Returns tt.

(** [quiet s c P]: run on session [s], the computation [c] returns a value
    satisfying [P]; it may have made calls, but the session, the globals
    and the exception log are as before. *)
Definition quiet {A} (s : gmap string sval) (c : M A) (P : A -> Prop) : Prop :=
  forall m, session_state m = s ->
    exists a t,
      c m = (Returns a, mkMachine s (limit_k m) t (raised m)) /\ P a.

(** What every reachable session satisfies. *)
Definition session_inv (s : gmap string sval) : Prop :=
  messages_ok s /\
  alternating (history s) /\
  Nat.even (length (history s)) = true /\
  (exited_flag s = true -> s = {["exited" := SBool true]}).

(** ** Concrete worlds and sessions *)

Definition serum_a : doc :=
  <["product_name" := PStr "Serum A"]>
    (<["description" := PStr "Vitamin C"]>
       (<["product_image_link" := PStr "url1"]> ∅)).

Definition serum_b : doc :=
  <["product_name" := PStr "Serum B"]>
    (<["description" := PStr "Niacinamide"]>
       (<["product_image_link" := PStr "url2"]> ∅)).

Definition deployment_configured : deployment :=
  mkDeployment
    (<["google_api_key" := "g-key"]>
       (<["qdrant_api_key" := "q-key"]>
          (<["together_api_key" := "t-key"]>
             (<["QDRANT_URL" := "https://qdrant.example"]> ∅))))
    (fun key => "st.secrets has no key " ++ key)
    (Returns tt).

Definition text_chunk (c : option string) : chunk :=
  mkChunk [mkChoice (mkDelta c)].

Definition timeout_error : exn := mkExn ClsException "timed out".

(** Every service answers; the stream carries three chunks, the second
    without content. *)
Definition world_ok : world :=
  mkWorld (Returns tt)
    (fun _ => Returns [Some [1%float; 0%float]])
    (fun _ => Returns [mkScoredPoint serum_a 1%float [];
                       mkScoredPoint serum_b 1%float []])
    (Returns tt)
    (fun _ => Returns (map Returns [text_chunk (Some "Serum A ");
                                    text_chunk None;
                                    text_chunk (Some "cocok.")]))
    (fun _ => "[...]").

(** The embedding service is down. *)
Definition world_embed_down : world :=
  mkWorld (Returns tt) (fun _ => Raises timeout_error)
    (qdrant_search world_ok) (Returns tt) (completions_create world_ok)
    (repr_docs world_ok).

(** The embedding service answers with an empty vector. *)
Definition world_embed_empty : world :=
  mkWorld (Returns tt) (fun _ => Returns [Some []])
    (qdrant_search world_ok) (Returns tt) (completions_create world_ok)
    (repr_docs world_ok).

(** The completion stream breaks after its first chunk. *)
Definition world_stream_breaks : world :=
  mkWorld (Returns tt) (embed_content world_ok) (qdrant_search world_ok)
    (Returns tt)
    (fun _ => Returns [Returns (text_chunk (Some "Serum A "));
                       Raises timeout_error])
    (repr_docs world_ok).

Definition machine0 (s : gmap string sval) : machine := mkMachine s None [] [].

Definition session_empty_history : gmap string sval :=
  {["messages" := SMessages []]}.

Definition machine_after_save : machine :=
  mkMachine {["messages" := SMessages [mkTurn user "halo"]]} None
    [EvHistoryAppend (mkTurn user "halo");
     EvChatMessage "assistant"; EvSpinner "🔍 Mencari jawaban..."] [].

Definition embed_request_halo : embed_request :=
  mkEmbedRequest EMBEDDING_MODEL ["halo"] 1536 "RETRIEVAL_DOCUMENT".

Definition machine_embed_down : machine :=
  mkMachine ∅ None
    [EvGenaiClient; EvEmbed embed_request_halo;
     EvError "⚠️ Gagal membuat embedding: timed out"]
    [timeout_error].

Definition machine_embed_empty : machine :=
  mkMachine ∅ None [EvGenaiClient; EvEmbed embed_request_halo] [].

Definition three_chunks : list chunk :=
  [text_chunk (Some "Serum A "); text_chunk None; text_chunk (Some "cocok.")].

Definition machine_after_search : machine :=
  mkMachine {["messages" := SMessages [mkTurn user "halo"]]} (Some 8%Z)
    [EvHistoryAppend (mkTurn user "halo");
     EvChatMessage "assistant"; EvSpinner "🔍 Mencari jawaban...";
     EvGenaiClient; EvEmbed embed_request_halo;
     EvSearch (mkSearchRequest COLLECTION_NAME (Some [1%float; 0%float])
                 None 8 0.7%float 512 true true true)]
    [].

Definition completion_request_halo (w : world) : completion_request :=
  mkCompletionRequest "meta-llama/Llama-3.3-70B-Instruct-Turbo-Free"
    [("user", build_prompt w "halo" [serum_a; serum_b])] true.

Definition machine_after_stream : machine :=
  mkMachine {["messages" := SMessages [mkTurn user "halo"]]} (Some 8%Z)
    (trace machine_after_search ++
     [EvTogetherClient; EvCompletion (completion_request_halo world_ok);
      EvStreamRead; EvStreamRead; EvStreamRead; EvStreamRead])
    [].

Definition machine_after_broken_stream : machine :=
  mkMachine {["messages" := SMessages [mkTurn user "halo"]]} (Some 8%Z)
    (trace machine_after_search ++
     [EvTogetherClient; EvCompletion (completion_request_halo world_stream_breaks);
      EvStreamRead; EvStreamRead])
    [timeout_error].

(** ** Further observations *)

(** The request [embed_text] sends for a text. *)
Definition embed_request_for (text : string) : embed_request :=
  mkEmbedRequest EMBEDDING_MODEL [text] 1536 "RETRIEVAL_DOCUMENT".

(** The request [retrieve_documents] sends for an embedding. *)
Definition search_request_for (embedding : option vector) : search_request :=
  mkSearchRequest COLLECTION_NAME embedding None 8 0.7%float 512 true true true.

(** The request [generate_answer] sends for a query and its records. *)
Definition completion_request_for (w : world) (query : string)
  (docs : list doc) : completion_request :=
  mkCompletionRequest "meta-llama/Llama-3.3-70B-Instruct-Turbo-Free"
    [("user", build_prompt w query docs)] true.

Definition is_completion_call (ev : event) : bool :=
  match ev with
  | EvTogetherClient | EvCompletion _ | EvStreamRead => true
  | _ => false
  end.

(** Number of calls that involve the completion service. *)
Definition completion_calls (t : list event) : nat :=
  length (List.filter is_completion_call t).

(** The chunks of a stream that the generator gets to turn into
    fragments: those before the first read that raises and before the
    first chunk without a choice. *)
Fixpoint readable (s : stream) : list chunk :=
  match s with
  | Returns ch :: rest =>
      match choices ch with
      | [] => []
      | _ :: _ => ch :: readable rest
      end
  | _ => []
  end.

(** How reading a stream to its end finishes. *)
Fixpoint stream_ending (s : stream) : outcome unit :=
  match s with
  | [] => Returns tt
  | Returns ch :: rest =>
      match choices ch with
      | [] => Raises IndexError
      | _ :: _ => stream_ending rest
      end
  | Raises e :: _ => Raises e
  end.

(** [emits s c a t]: run on session [s], the computation [c] returns [a]
    after making exactly the calls [t]; the session, the globals and the
    exception log are as before. *)
Definition emits {A} (s : gmap string sval) (c : M A) (a : A)
  (t : list event) : Prop :=
  forall lk t0 r,
    c (mkMachine s lk t0 r) = (Returns a, mkMachine s lk (t0 ++ t) r).

(** What lines 179-190 display for slot [i] of a history. *)
Definition turn_events (l : list turn) (i : nat) : list event :=
  match l !! (i * 2) with
  | Some t => [EvChatMessage "user"; EvMarkdown (content t) false]
  | None => []
  end ++
  match l !! (i * 2 + 1) with
  | Some t =>
      [EvChatMessage "assistant";
       if bool_decide (Z.of_nat i = (Z.of_nat (length l) `div` 2 - 1)%Z)
       then EvMarkdown (last_message_div (content t)) true
       else EvMarkdown (content t) false]
  | None => []
  end.

(** What an iteration of the loop displays when its form is idle. *)
Definition slot_events (l : list turn) (i : nat) : list event :=
  [EvForm ("chat_form_" ++ pretty i);
   EvTextInput "📝 Pertanyaan:" ("input_" ++ pretty i)
     "Tulis pertanyaan Anda di sini...";
   EvSubmitButton "Kirim"] ++
  (if bool_decide (i = length l / 2)
   then [EvMarkdown (autofocus_script i) true] else []) ++
  turn_events l i.

(** What the iteration whose form delivers a text displays before it
    enters the submitted branch (lines 134-158). *)
Definition form_events (l : list turn) (i : nat) : list event :=
  [EvForm ("chat_form_" ++ pretty i);
   EvTextInput "📝 Pertanyaan:" ("input_" ++ pretty i)
     "Tulis pertanyaan Anda di sini...";
   EvSubmitButton "Kirim"] ++
  (if bool_decide (i = length l / 2)
   then [EvMarkdown (autofocus_script i) true] else []).

(** What the page displays before its loop (lines 122-124). *)
Definition page_header : list event :=
  [EvSetPageConfig "💊 Chatbot RAG Produk Skincare" "wide";
   EvTitle "💬 Chatbot RAG Produk Skincare";
   EvMarkdown intro_message false].

(** The page as a function of the history. *)
Definition view (l : list turn) : list event :=
  [EvSetPageConfig "💊 Chatbot RAG Produk Skincare" "wide";
   EvTitle "💬 Chatbot RAG Produk Skincare";
   EvMarkdown intro_message false] ++
  flat_map (slot_events l) (seq 0 (length l / 2 + 1)) ++
  [EvButton "❌ Exit";
   EvMarkdown autoscroll_script true;
   EvCaption "🧠 Creator : Hafiz Pambudi"].




(** The keys of the forms among the things displayed. *)
Definition form_keys (t : list event) : list string :=
  omap (fun ev => match ev with EvForm key => Some key | _ => None end) t.

(** Number of newline characters in a string. *)
Fixpoint newlines (s : string) : nat :=
  match s with
  | EmptyString => 0
  | String c rest =>
      (if bool_decide (c = Ascii.ascii_of_nat 10) then 1 else 0) + newlines rest
  end.

(** Newline characters inside the three rendered fields of a record. *)
Definition field_newlines (d : doc) : nat :=
  newlines (get_str d "product_name" "Tanpa Nama") +
  newlines (get_str d "description" "") +
  newlines (get_str d "product_image_link" "-").

(** The vector index is down. *)
Definition world_search_down : world :=
  mkWorld (Returns tt) (embed_content world_ok)
    (fun _ => Raises timeout_error) (Returns tt)
    (completions_create world_ok) (repr_docs world_ok).

(** The stream carries a chunk without a choice between two chunks of
    text. *)
Definition world_choiceless_chunk : world :=
  mkWorld (Returns tt) (embed_content world_ok) (qdrant_search world_ok)
    (Returns tt)
    (fun _ => Returns [Returns (text_chunk (Some "Serum A "));
                       Returns (mkChunk []);
                       Returns (text_chunk (Some "cocok."))])
    (repr_docs world_ok).

(** A deployment whose secrets lack the completion key. *)
Definition deployment_without_together_key : deployment :=
  mkDeployment
    (<["google_api_key" := "g-key"]>
       (<["qdrant_api_key" := "q-key"]>
          (<["QDRANT_URL" := "https://qdrant.example"]> ∅)))
    (fun key => "st.secrets has no key " ++ key)
    (Returns tt).

Definition machine_embed_ok : machine :=
  mkMachine ∅ None [EvGenaiClient; EvEmbed embed_request_halo] [].

Definition machine_search_down : machine :=
  mkMachine ∅ (Some 8%Z)
    [EvGenaiClient; EvEmbed embed_request_halo;
     EvSearch (search_request_for (Some [1%float; 0%float]));
     EvError "❌ Gagal mengambil dokumen: timed out"]
    [timeout_error].

Definition machine_search_ok : machine :=
  mkMachine ∅ (Some 8%Z)
    [EvGenaiClient; EvEmbed embed_request_halo;
     EvSearch (search_request_for (Some [1%float; 0%float]))]
    [].

Definition session_one_pair : gmap string sval :=
  {["messages" := SMessages [mkTurn user "halo";
                             mkTurn assistant "Serum A cocok."]]}.

(** ** The formatter, as the specification words it *)

(** A field of a record: the fallback text when the record lacks the key,
    else the stored value as Python prints it. *)
Definition spec_field (stored : option pyval) (fallback : string) : string :=
  match stored with
  | None => fallback
  | Some (PStr text) => text
  | Some PNone => "None"
  | Some (PBool true) => "True"
  | Some (PBool false) => "False"
  | Some (PInt z) => pretty z
  end.

(** One record, one line:
    [- <name>, <description> (Gambar: <image reference>)]. *)
Definition spec_line (d : doc) : string :=
  "- " ++ spec_field (d !! "product_name") "Tanpa Nama" ++ ", " ++
  spec_field (d !! "description") "" ++ " (Gambar: " ++
  spec_field (d !! "product_image_link") "-" ++ ")".

(** The lines of the records, in their order, with one line feed
    (character 10) between neighbours. *)
Definition spec_format (docs : list doc) : string :=
  String.concat (String "010"%char EmptyString) (map spec_line docs).

(** ** The formatter on shared records *)

(** Python hands the record list to the formatter by reference: the list
    and the dictionaries in it are objects the caller still holds when the
    call is over.  The object store makes visible what a call does to
    them. *)
Inductive object :=
| ObjList (items : list nat)     (* a list of references *)
| ObjDict (d : doc).             (* a payload *)

Definition store := gmap nat object.

Definition OnStore (A : Type) : Type := store -> outcome A * store.

Definition store_ret {A} (a : A) : OnStore A := fun h => (Returns a, h).

Definition store_bind {A B} (c : OnStore A) (k : A -> OnStore B) : OnStore B :=
  fun h =>
    match c h with
    | (Returns a, h') => k a h'
    | (Raises e, h') => (Raises e, h')
    end.

Declare Scope store_scope.
Delimit Scope store_scope with store.
Notation "x <~ c ;; k" := (store_bind c (fun x => k))
  (at level 100, c at next level, right associativity) : store_scope.

Definition TypeError (what : string) : exn := mkExn ClsException what.

(** The items of the list behind [r], which [for doc in docs] walks.  The
    body of the comprehension is handed the record and not the list, so
    the items walked are those the list holds when the walk begins. *)
Definition list_items (r : nat) : OnStore (list nat) :=
  fun h => match h !! r with
           | Some (ObjList items) => (Returns items, h)
           | _ => (Raises (TypeError "not a list of records"), h)
           end.

(** [doc.get(key, fallback)] on the dictionary behind [r]: a lookup, which
    leaves the dictionary as it is also when the key is missing. *)
Definition dict_get (r : nat) (key : string) (fallback : pyval)
  : OnStore pyval :=
  fun h => match h !! r with
           | Some (ObjDict d) => (Returns (default fallback (d !! key)), h)
           | _ => (Raises (AttributeError "not a record"), h)
           end.

(** [[body doc for doc in items]] *)
Fixpoint comprehension {A} (body : nat -> OnStore A) (items : list nat)
  : OnStore (list A) :=
  match items with
  | [] => store_ret []
  | r :: rest =>
      (x <~ body r ;;
       xs <~ comprehension body rest ;;
       store_ret (x :: xs))%store
  end.

(** Line 82, for the record behind [r]. *)
Definition format_line_at (r : nat) : OnStore string :=
  (name <~ dict_get r "product_name" (PStr "Tanpa Nama") ;;
   description <~ dict_get r "description" (PStr "") ;;
   image <~ dict_get r "product_image_link" (PStr "-") ;;
   store_ret ("- " ++ py_str name ++ ", " ++ py_str description ++
              " (Gambar: " ++ py_str image ++ ")"))%store.

(** Lines 80-84, called with a reference to the record list. *)
Definition format_context_at (docs : nat) : OnStore string :=
  (items <~ list_items docs ;;
   lines <~ comprehension format_line_at items ;;
   store_ret (join nl lines))%store.

(** A store with a list of three references to two records, the first
    record being listed twice. *)
Definition store_two_records : store :=
  <[0 := ObjList [1; 2; 1]]>
    (<[1 := ObjDict serum_a]> (<[2 := ObjDict serum_b]> ∅)).


(** * Properties *)

Ltac run :=
  unfold call, emit, st_error, st_markdown, index0, ret, raise, bind,
    try_except_Exception, try_except; simpl.

Ltac count_calls :=
  unfold search_calls; simpl;
  rewrite ?List.filter_app, ?length_app; simpl; lia.

(** ** The embedding client *)

(** [embed_text] never contacts the vector index. *)
Lemma embed_text_no_search w text m r m' :
  embed_text w text m = (r, m') ->
  search_calls (trace m') = search_calls (trace m).
Proof.
  unfold embed_text, get_genai_client. run.
  destruct (get_genai_client_result w) as [[]|e1]; simpl.
  - destruct (embed_content w _) as [[|first rest]|e2]; simpl;
      try destruct (is_Exception _); simpl;
      intros [= <- <-]; count_calls.
  - destruct (is_Exception e1); simpl;
      intros [= <- <-]; count_calls.
Qed.

(** ** The vector search client *)

(** Line 59: a falsy embedding ends [retrieve_documents] at once. *)
Lemma retrieve_documents_short_circuit w query m embedding m1 :
  embed_text w query m = (Returns embedding, m1) ->
  not_embedding embedding = true ->
  retrieve_documents w query m = (Returns [], m1).
Proof.
  intros Hembed Hnot. unfold retrieve_documents, bind.
  by rewrite Hembed, Hnot.
Qed.

(** C5: when the embedding client fails, i.e. [embed_text] returns no
    vector, [retrieve_documents] returns the empty list in the very state
    the embedding client left, and the vector index has not been called. *)
Theorem retrieve_documents_embedding_failure w query m m1 :
  embed_text w query m = (Returns None, m1) ->
  retrieve_documents w query m = (Returns [], m1) /\
  search_calls (trace m1) = search_calls (trace m).
Proof.
  intros Hembed. split.
  - by eapply retrieve_documents_short_circuit.
  - by eapply embed_text_no_search.
Qed.

(** C9: an embedding call that succeeds with an empty vector takes the
    same exit: the empty list is returned in the state the embedding client
    left, the vector index is not called, and the caller receives exactly
    what it receives after an embedding failure. *)
Theorem retrieve_documents_empty_embedding w query m m1 :
  embed_text w query m = (Returns (Some []), m1) ->
  retrieve_documents w query m = (Returns [], m1) /\
  search_calls (trace m1) = search_calls (trace m) /\
  (forall w' query' m' m1',
      embed_text w' query' m' = (Returns None, m1') ->
      fst (retrieve_documents w' query' m') = fst (retrieve_documents w query m)).
Proof.
  intros Hembed.
  assert (Hr : retrieve_documents w query m = (Returns [], m1))
    by by eapply retrieve_documents_short_circuit.
  split; [done|]. split; [by eapply embed_text_no_search|].
  intros w' query' m' m1' Hfail.
  by rewrite Hr, (retrieve_documents_short_circuit _ _ _ _ _ Hfail).
Qed.

(** ** Strings *)

Lemma append_empty_l (s : string) : "" ++ s = s.
Proof. reflexivity. Qed.

Lemma append_cons c (s t : string) : String c s ++ t = String c (s ++ t).
Proof. reflexivity. Qed.

Lemma append_nil_r (s : string) : s ++ "" = s.
Proof.
  induction s as [|c s IH]; [done|]. by rewrite append_cons, IH.
Qed.

Lemma append_assoc (s1 s2 s3 : string) : (s1 ++ s2) ++ s3 = s1 ++ s2 ++ s3.
Proof.
  induction s1 as [|c s1 IH]; [done|]. by rewrite !append_cons, IH.
Qed.

(** [acc += x] for every [x] of [xs] appends their concatenation. *)
Lemma fold_append (xs : list string) (acc : string) :
  fold_left (fun a x => a ++ x) xs acc = acc ++ String.concat "" xs.
Proof.
  revert acc. induction xs as [|x xs IH]; intros acc; simpl.
  - by rewrite append_nil_r.
  - rewrite IH, append_assoc.
    destruct xs; simpl; [by rewrite append_nil_r|by rewrite append_empty_l].
Qed.

(** ** Generators *)

(** A [for] loop over a generator sees exactly the values [pull_all]
    lists; it ends normally when the generator does, and with the
    generator's exception otherwise. *)
Lemma for_generator_pull_all {A S} (body : S -> A -> S) :
  forall (g : generator A) (acc : S) (m : machine),
    for_generator g body acc m =
    match pull_all g m with
    | (ys, Returns _, m') => (Returns (fold_left body ys acc), m')
    | (_, Raises e, m') => (Raises e, m')
    end.
Proof.
  fix IH 1. intros [r] acc m. simpl.
  destruct (r m) as [[[a rest| ]|e] m']; [|done|done].
  rewrite (IH rest (body acc a) m').
  by destruct (pull_all rest m') as [[ys [[]|e]] m''].
Qed.

(** ** The answer generator *)

(** Reading a stream whose chunks all arrive and carry a choice: one
    fragment per chunk, then a normal end; the only effect is one stream
    read per chunk and one for the end of the stream. *)
Lemma pull_all_stream_loop (chunks : list chunk) :
  Forall (fun ch => choices ch <> []) chunks ->
  forall response m,
    pull_all (stream_loop (map Returns chunks) response) m =
    (map chunk_fragment chunks, Returns tt,
     mkMachine (session_state m) (limit_k m)
       (trace m ++ replicate (S (length chunks)) EvStreamRead) (raised m)).
Proof.
  induction 1 as [|ch chunks Hch _ IH]; intros response m.
  - reflexivity.
  - destruct ch as [[|first others]]; [done|].
    simpl. run. rewrite IH. simpl.
    unfold chunk_fragment. simpl.
    by rewrite <- app_assoc.
Qed.

Lemma pull_all_no_records w query m :
  pull_all (generate_answer w query []) m = ([no_info_message], Returns tt, m).
Proof. reflexivity. Qed.

(** C3: for an empty record list the generator yields the single fixed
    fragment and ends normally; the machine it ends in is the one it
    started in, so no call of any kind (in particular none to the
    completion service) has been made. *)
Theorem generate_answer_no_records w query m :
  pull_all (generate_answer w query []) m =
  ([no_info_message], Returns tt, m).
Proof. apply pull_all_no_records. Qed.

(** C10: on the non-empty path, with the completion stream delivering
    chunks that each carry a choice, the generator ends normally after
    yielding one string per chunk, namely [content or ""]; a chunk whose
    delta content is [None] contributes the empty string. *)
Theorem generate_answer_yields_strings w query docs chunks m :
  docs <> [] ->
  get_together_client_result w = Returns tt ->
  completions_create w
    (mkCompletionRequest "meta-llama/Llama-3.3-70B-Instruct-Turbo-Free"
       [("user", build_prompt w query docs)] true)
  = Returns (map Returns chunks) ->
  Forall (fun ch => choices ch <> []) chunks ->
  (exists m',
      pull_all (generate_answer w query docs) m =
      (map chunk_fragment chunks, Returns tt, m')) /\
  (forall ch first others,
      ch ∈ chunks ->
      choices ch = first :: others ->
      delta_content (choice_delta first) = None ->
      chunk_fragment ch = "").
Proof.
  intros Hdocs Hclient Hcreate Hchunks. split.
  - unfold generate_answer, get_together_client. simpl.
    rewrite bool_decide_eq_false_2 by done.
    run. rewrite Hclient, Hcreate. simpl.
    pose proof (pull_all_stream_loop chunks Hchunks "") as Hloop.
    destruct (stream_loop (map Returns chunks) "") as [r] eqn:Hg.
    simpl in *. rewrite Hloop. eauto.
  - intros ch first others _ Hchoices Hnone.
    unfold chunk_fragment. by rewrite Hchoices, Hnone.
Qed.

(** ** What the pipeline leaves behind *)

(** [retrieve_documents] never touches the session; when it returns after
    some exception was raised (and handled), it returns the empty list. *)
Lemma retrieve_documents_effect w query m r m1 :
  retrieve_documents w query m = (r, m1) ->
  session_state m1 = session_state m /\
  match r with
  | Returns docs => raised m1 = raised m \/ docs = []
  | Raises _ => True
  end.
Proof.
  unfold retrieve_documents, embed_text, get_genai_client, set_limit_k,
    get_limit_k. run.
  destruct (get_genai_client_result w) as [[]|e1]; simpl.
  - destruct (embed_content w _) as [[|[[|x v]|] rest]|e2]; simpl;
      try destruct (is_Exception _); simpl;
      try (intros [= <- <-]; simpl; by auto).
    destruct (qdrant_search w _) as [results|e3]; simpl;
      try destruct (is_Exception _); simpl;
      intros [= <- <-]; simpl; by auto.
  - destruct (is_Exception e1); simpl; intros [= <- <-]; simpl; by auto.
Qed.

(** The stream loop never touches the session, and ends normally only if
    nothing was raised while it ran. *)
Lemma stream_loop_effect (s : stream) :
  forall response m frags ending m',
    pull_all (stream_loop s response) m = (frags, ending, m') ->
    session_state m' = session_state m /\
    match ending with
    | Returns _ => raised m' = raised m
    | Raises _ => True
    end.
Proof.
  induction s as [|item rest IH]; intros response m frags ending m'.
  - simpl. run. by intros [= <- <- <-].
  - simpl. run. destruct item as [[[|first others]]|e]; simpl.
    + by intros [= <- <- <-].
    + destruct (pull_all (stream_loop rest _) _) as [[ys e'] m''] eqn:Hrest.
      intros [= <- <- <-]. by apply IH in Hrest.
    + by intros [= <- <- <-].
Qed.

(** The same for the whole generator. *)
Lemma generate_answer_effect w query docs m frags ending m' :
  pull_all (generate_answer w query docs) m = (frags, ending, m') ->
  session_state m' = session_state m /\
  match ending with
  | Returns _ => raised m' = raised m
  | Raises _ => True
  end.
Proof.
  unfold generate_answer, get_together_client. simpl.
  destruct (bool_decide (docs = [])); simpl.
  - by intros [= <- <- <-].
  - run. destruct (get_together_client_result w) as [[]|e1]; simpl;
      [|by intros [= <- <- <-]].
    destruct (completions_create w _) as [s|e2]; simpl;
      [|by intros [= <- <- <-]].
    intros Hpull.
    pose proof (stream_loop_effect s "") as Hloop.
    destruct (stream_loop s "") as [r]. simpl in Hloop.
    by apply Hloop in Hpull.
Qed.

(** Lines 166-172 as a function of what its two stages do. *)
Lemma answer_turn_spec w query m :
  answer_turn w query m =
  match retrieve_documents w query m with
  | (Returns docs, m1) =>
      match pull_all (generate_answer w query docs) m1 with
      | (frags, Returns _, m2) => (Returns (String.concat "" frags), m2)
      | (_, Raises _, m2) => (Returns apology_message, m2)
      end
  | (Raises _, m1) => (Returns apology_message, m1)
  end.
Proof.
  unfold answer_turn, try_except, bind, ret.
  destruct (retrieve_documents w query m) as [[docs|e] m1]; [|done].
  rewrite for_generator_pull_all.
  destruct (pull_all (generate_answer w query docs) m1) as [[frags [[]|e]] m2];
    [|done].
  by rewrite fold_append, append_empty_l.
Qed.

(** The pipeline always hands a text back and never touches the session. *)
Lemma answer_turn_total w query m :
  exists response_text m',
    answer_turn w query m = (Returns response_text, m') /\
    session_state m' = session_state m.
Proof.
  rewrite answer_turn_spec.
  destruct (retrieve_documents w query m) as [[docs|e] m1] eqn:Hr;
    apply retrieve_documents_effect in Hr as [Hs1 _]; [|by eauto].
  destruct (pull_all (generate_answer w query docs) m1) as [[frags [[]|e]] m2]
    eqn:Hg; apply generate_answer_effect in Hg as [Hs2 _];
    eexists _, _; (split; [done|congruence]).
Qed.

(** If anything was raised while the pipeline ran, handled on the way or
    not, the text handed back is the apology. *)
Lemma answer_turn_after_exception w query m :
  raised (snd (answer_turn w query m)) <> raised m ->
  fst (answer_turn w query m) = Returns apology_message.
Proof.
  rewrite answer_turn_spec.
  destruct (retrieve_documents w query m) as [[docs|e] m1] eqn:Hr; [|done].
  apply retrieve_documents_effect in Hr as [_ Hr].
  destruct (pull_all (generate_answer w query docs) m1) as [[frags [[]|e]] m2]
    eqn:Hg; [|done].
  destruct Hr as [Hr| ->].
  - apply generate_answer_effect in Hg as [_ Hg]. simpl. congruence.
  - rewrite pull_all_no_records in Hg. by injection Hg as <- <-.
Qed.

(** ** The submitted branch *)

Lemma get_messages_eq m l :
  session_state m !! "messages" = Some (SMessages l) ->
  get_messages m = (Returns l, m).
Proof. intros H. unfold get_messages. by rewrite H. Qed.

Lemma bind_returns {A B} (c : M A) (k : A -> M B) m a m' :
  c m = (Returns a, m') -> bind c k m = k a m'.
Proof. intros H. unfold bind. by rewrite H. Qed.

Lemma bind_raises {A B} (c : M A) (k : A -> M B) m e m' :
  c m = (Raises e, m') -> bind c k m = (Raises e, m').
Proof. intros H. unfold bind. by rewrite H. Qed.

Lemma save_user_message_spec user_input m l :
  session_state m !! "messages" = Some (SMessages l) ->
  save_user_message user_input m =
  (Returns tt,
   mkMachine (<["messages" := SMessages (l ++ [mkTurn user user_input])]>
                (session_state m))
     (limit_k m)
     (((trace m ++ [EvHistoryAppend (mkTurn user user_input)]) ++
       [EvChatMessage "assistant"]) ++ [EvSpinner "🔍 Mencari jawaban..."])
     (raised m)).
Proof.
  intros H. unfold save_user_message, messages_append.
  unfold bind at 1 2. rewrite (get_messages_eq _ _ H). reflexivity.
Qed.

(** Lines 159-177 in one step: the user turn is stored, the pipeline runs
    on the session that already holds it and hands back a text without
    touching the session, that text is stored as the assistant turn, and
    the pass ends with a rerun request. *)
Lemma submitted_branch_spec w user_input m l :
  session_state m !! "messages" = Some (SMessages l) ->
  exists m0 response_text m1 m',
    save_user_message user_input m = (Returns tt, m0) /\
    session_state m0 =
      <["messages" := SMessages (l ++ [mkTurn user user_input])]> (session_state m) /\
    answer_turn w user_input m0 = (Returns response_text, m1) /\
    session_state m1 = session_state m0 /\
    submitted_branch w user_input m = (Raises (mkExn ClsRerun ""), m') /\
    session_state m' =
      <["messages" := SMessages (l ++ [mkTurn user user_input;
                                       mkTurn assistant response_text])]>
        (session_state m).
Proof.
  intros H.
  pose proof (save_user_message_spec user_input m l H) as Hsave.
  set (m0 := mkMachine _ _ _ _) in Hsave.
  destruct (answer_turn_total w user_input m0) as (r & m1 & Hans & Hsess).
  exists m0, r, m1. eexists. split; [done|]. split; [done|].
  split; [done|]. split; [done|].
  unfold submitted_branch.
  rewrite (bind_returns _ _ _ _ _ Hsave), (bind_returns _ _ _ _ _ Hans).
  unfold st_markdown, messages_append, st_rerun. run.
  unfold get_messages. simpl. rewrite Hsess. simpl.
  rewrite lookup_insert_eq. simpl. split; [reflexivity|].
  by rewrite insert_insert_eq, <- app_assoc.
Qed.

(** ** The conversation loop *)

Lemma submits_at_Some ui i text :
  submits_at ui i = Some text -> ui = FormSubmit i text /\ text <> "".
Proof.
  destruct ui as [|j t|]; simpl; try done.
  repeat case_bool_decide; simpl; try done. intros [= ->]. by subst.
Qed.


(** ** Computations that only render *)

Lemma quiet_ret {A} s (a : A) (P : A -> Prop) : P a -> quiet s (ret a) P.
Proof. intros Ha [s' k t r] <-. by exists a, t. Qed.

Lemma quiet_bind {A B} s (c : M A) (k : A -> M B) P Q :
  quiet s c P -> (forall a, P a -> quiet s (k a) Q) -> quiet s (bind c k) Q.
Proof.
  intros Hc Hk m Hm. destruct (Hc m Hm) as (a & t & Hrun & Ha).
  destruct (Hk a Ha (mkMachine s (limit_k m) t (raised m)) eq_refl)
    as (b & t' & Hrun' & Hb).
  exists b, t'. by rewrite (bind_returns _ _ _ _ _ Hrun).
Qed.

Lemma quiet_emit s ev : quiet s (emit ev) (fun _ => True).
Proof. intros m <-. by eexists tt, _. Qed.

Lemma quiet_get_messages s l :
  s !! "messages" = Some (SMessages l) ->
  quiet s get_messages (fun x => x = l).
Proof.
  intros Hl [s' k t r] <-. exists l, t.
  by rewrite (get_messages_eq _ _ Hl).
Qed.

Lemma quiet_content_at s (l : list turn) idx :
  idx < length l -> quiet s (content_at l idx) (fun _ => True).
Proof.
  intros Hlt. unfold content_at.
  destruct (lookup_lt_is_Some_2 l idx Hlt) as [t ->]. by apply quiet_ret.
Qed.

Lemma quiet_text_input s ui i :
  quiet s (st_text_input ui i)
    (fun x => x = match ui with
                  | FormSubmit j text => if bool_decide (j = i) then text else ""
                  | _ => ""
                  end).
Proof.
  unfold st_text_input. eapply quiet_bind; [apply quiet_emit|].
  intros _ _. by apply quiet_ret.
Qed.

Lemma quiet_form_submit_button s ui i :
  quiet s (st_form_submit_button ui i)
    (fun x => x = match ui with
                  | FormSubmit j _ => bool_decide (j = i)
                  | _ => false
                  end).
Proof.
  unfold st_form_submit_button. eapply quiet_bind; [apply quiet_emit|].
  intros _ _. by apply quiet_ret.
Qed.

Ltac quiet_step :=
  first [ apply quiet_emit
        | apply quiet_ret; done
        | apply quiet_content_at; lia
        | eapply quiet_bind; [apply quiet_emit|intros _ _]
        | eapply quiet_bind; [eapply quiet_get_messages; eassumption|intros ? ->]
        | eapply quiet_bind; [apply quiet_content_at; lia|intros ? _] ].

(** Lines 179-190: re-display of the turns of slot [i]. *)
Lemma quiet_show_history s i l :
  s !! "messages" = Some (SMessages l) ->
  quiet s
    (messages <- get_messages ;;
     (if bool_decide (i * 2 < length messages)
      then emit (EvChatMessage "user") ;;
           c <- content_at messages (i * 2) ;;
           st_markdown c false
      else ret tt) ;;
     messages <- get_messages ;;
     (if bool_decide (i * 2 + 1 < length messages)
      then emit (EvChatMessage "assistant") ;;
           if bool_decide (Z.of_nat i = (Z.of_nat (length messages) `div` 2 - 1)%Z)
           then c <- content_at messages (i * 2 + 1) ;;
                st_markdown (last_message_div c) true
           else c <- content_at messages (i * 2 + 1) ;;
                st_markdown c false
      else ret tt))
    (fun _ => True).
Proof.
  intros Hl. unfold st_markdown.
  quiet_step.
  eapply quiet_bind with (P := fun _ => True).
  { case_bool_decide; repeat quiet_step. }
  intros _ _. quiet_step.
  case_bool_decide; [|by quiet_step].
  quiet_step. case_bool_decide; repeat quiet_step.
Qed.

(** An iteration whose form was not submitted only renders. *)
Lemma loop_body_idle w ui i s l :
  s !! "messages" = Some (SMessages l) ->
  submits_at ui i = None ->
  quiet s (loop_body w ui i) (fun _ => True).
Proof.
  intros Hl Hidle. unfold loop_body.
  quiet_step. quiet_step.
  eapply quiet_bind; [apply quiet_text_input|intros user_input ->].
  eapply quiet_bind; [apply quiet_form_submit_button|intros submitted ->].
  eapply quiet_bind with (P := fun _ => True).
  { unfold st_markdown. case_bool_decide; quiet_step. }
  intros _ _.
  eapply quiet_bind with (P := fun _ => True).
  { destruct ui as [|j text|]; simpl in *; try quiet_step.
    repeat case_bool_decide; simpl in *; try done; quiet_step. }
  intros _ _. by eapply quiet_show_history.
Qed.

Lemma for_range_idle w ui s l indices :
  s !! "messages" = Some (SMessages l) ->
  (forall i, i ∈ indices -> submits_at ui i = None) ->
  quiet s (for_range indices (loop_body w ui)) (fun _ => True).
Proof.
  intros Hl. induction indices as [|i rest IH]; intros Hidle; simpl.
  - by apply quiet_ret.
  - eapply quiet_bind.
    + eapply loop_body_idle; [done|]. apply Hidle. by left.
    + intros _ _. apply IH. intros j Hj. apply Hidle. by right.
Qed.

(** Running past a quiet prefix. *)
Lemma quiet_run {A B} s (c : M A) P (k : A -> M B) m :
  quiet s c P ->
  session_state m = s ->
  exists a t,
    P a /\ bind c k m = k a (mkMachine s (limit_k m) t (raised m)).
Proof.
  intros Hc Hm. destruct (Hc m Hm) as (a & t & Hrun & Ha).
  exists a, t. by rewrite (bind_returns _ _ _ _ _ Hrun).
Qed.

Ltac run_quiet lem :=
  lazymatch goal with
  | |- context [bind ?c ?k ?m] =>
      let a := fresh "a" in
      let t := fresh "t" in
      let Ha := fresh "Ha" in
      let Hr := fresh "Hr" in
      destruct (quiet_run _ c _ k m lem eq_refl) as (a & t & Ha & Hr);
      rewrite Hr; clear Hr; cbv beta; cbn [limit_k raised]
  end.

Lemma submitted_branch_raises w user_input m l :
  session_state m !! "messages" = Some (SMessages l) ->
  exists m', submitted_branch w user_input m = (Raises (mkExn ClsRerun ""), m').
Proof.
  intros Hl.
  destruct (submitted_branch_spec w user_input m l Hl)
    as (? & ? & ? & m' & _ & _ & _ & _ & Hrun & _).
  eauto.
Qed.

(** The iteration whose form was submitted runs the submitted branch, and
    nothing after it. *)
Lemma loop_body_submit w ui i s l text lk t r :
  s !! "messages" = Some (SMessages l) ->
  submits_at ui i = Some text ->
  exists t',
    loop_body w ui i (mkMachine s lk t r) =
    submitted_branch w text (mkMachine s lk t' r).
Proof.
  intros Hl Hsub. apply submits_at_Some in Hsub as [-> Htext].
  unfold loop_body.
  run_quiet (quiet_get_messages s l Hl). subst.
  run_quiet (quiet_emit s (EvForm ("chat_form_" ++ pretty i))).
  run_quiet (quiet_text_input s (FormSubmit i text) i). subst.
  run_quiet (quiet_form_submit_button s (FormSubmit i text) i). subst.
  rewrite !(bool_decide_eq_true_2 (i = i)) by done.
  rewrite (bool_decide_eq_false_2 (text = "")) by done. simpl.
  assert (Hfocus : quiet s
            (if bool_decide (i = length l / 2)
             then st_markdown (autofocus_script i) true else ret tt)
            (fun _ => True)).
  { unfold st_markdown. case_bool_decide; quiet_step. }
  run_quiet Hfocus.
  lazymatch goal with
  | |- context [mkMachine s lk ?t' r] =>
      destruct (submitted_branch_raises w text (mkMachine s lk t' r) l Hl)
        as [m' Hraise];
      exists t'; by rewrite (bind_raises _ _ _ _ _ Hraise)
  end.
Qed.

Lemma for_range_submit w ui i s l text indices :
  s !! "messages" = Some (SMessages l) ->
  submits_at ui i = Some text ->
  i ∈ indices ->
  forall lk t r,
  exists t',
    for_range indices (loop_body w ui) (mkMachine s lk t r) =
    submitted_branch w text (mkMachine s lk t' r).
Proof.
  intros Hl Hsub. induction indices as [|j rest IH]; intros Hin lk t r.
  - by apply elem_of_nil in Hin.
  - simpl. destruct (decide (j = i)) as [->|Hne].
    + destruct (loop_body_submit w ui i s l text lk t r Hl Hsub) as [t' Hrun].
      destruct (submitted_branch_raises w text (mkMachine s lk t' r) l Hl)
        as [m' Hraise].
      exists t'. rewrite Hraise in Hrun.
      by rewrite (bind_raises _ _ _ _ _ Hrun).
    + assert (Hidle : submits_at ui j = None).
      { apply submits_at_Some in Hsub as [-> _]. simpl.
        by rewrite bool_decide_eq_false_2. }
      run_quiet (loop_body_idle w ui j s l Hl Hidle).
      apply IH. apply elem_of_cons in Hin as [->|Hin]; done.
Qed.

(** ** The sections of the page *)

Lemma exit_state_handler_exited m :
  exited_flag (session_state m) = true ->
  exit_state_handler m =
  (Raises (mkExn ClsStop ""),
   mkMachine (session_state m) (limit_k m)
     (trace m ++ [EvMarkdown closing_message false])
     (raised m ++ [mkExn ClsStop ""])).
Proof.
  destruct m as [s lk t r]. simpl.
  unfold exited_flag, exit_state_handler, session_contains, session_get,
    st_stop. run.
  destruct (s !! "exited") as [v|] eqn:Hs; [|done].
  intros Hv. rewrite bool_decide_eq_true_2 by done. simpl.
  rewrite ?Hs. simpl. by rewrite Hv.
Qed.

Lemma exit_state_handler_live s :
  exited_flag s = false -> quiet s exit_state_handler (fun _ => True).
Proof.
  intros Hflag [s' lk t r] <-. simpl in *.
  unfold exited_flag, exit_state_handler, session_contains, session_get in *.
  run. destruct (s' !! "exited") as [v|] eqn:Hs.
  - rewrite bool_decide_eq_true_2 by done. simpl. rewrite ?Hs. simpl.
    rewrite Hflag. by eexists tt, _.
  - rewrite bool_decide_eq_false_2 by (by intros [? ?]). by eexists tt, _.
Qed.

Lemma page_config_quiet s : quiet s page_config (fun _ => True).
Proof. unfold page_config, st_markdown. repeat quiet_step. Qed.

Lemma initialize_session_state_spec m :
  messages_ok (session_state m) ->
  initialize_session_state m =
  (Returns tt,
   mkMachine (<["messages" := SMessages (history (session_state m))]>
                (session_state m))
     (limit_k m) (trace m) (raised m)).
Proof.
  destruct m as [s lk t r]. simpl.
  unfold messages_ok, history, initialize_session_state, session_contains,
    session_set. run.
  destruct (s !! "messages") as [[| l |]|] eqn:Hl; try done; intros _.
  rewrite bool_decide_eq_true_2 by done. simpl. by rewrite insert_id.
Qed.

Lemma exit_button_pressed m :
  exit_button ExitPressed m =
  (Raises (mkExn ClsRerun ""),
   mkMachine {["exited" := SBool true]} (limit_k m)
     (trace m ++ [EvButton "❌ Exit"])
     (raised m ++ [mkExn ClsRerun ""])).
Proof.
  unfold exit_button, st_button, session_clear, session_set, st_rerun. run.
  by rewrite insert_empty.
Qed.

Lemma exit_button_idle s ui :
  ui <> ExitPressed -> quiet s (exit_button ui) (fun _ => True).
Proof.
  intros Hui. unfold exit_button, st_button.
  eapply quiet_bind with (P := fun x => x = false).
  - quiet_step. destruct ui; try done; by apply quiet_ret.
  - intros ? ->. quiet_step.
Qed.

Lemma auto_scroll_and_footer_quiet s :
  quiet s auto_scroll_and_footer (fun _ => True).
Proof. unfold auto_scroll_and_footer, st_markdown. repeat quiet_step. Qed.

Lemma history_insert s l :
  history (<["messages" := SMessages l]> s) = l.
Proof. unfold history. by rewrite lookup_insert_eq. Qed.

(** The loop when no form delivers a text. *)
Lemma conversation_loop_idle w ui s l :
  s !! "messages" = Some (SMessages l) ->
  (forall i, i <= length l / 2 -> submits_at ui i = None) ->
  quiet s (conversation_loop w ui) (fun _ => True).
Proof.
  intros Hl Hidle. unfold conversation_loop.
  quiet_step. eapply for_range_idle; [done|].
  intros i Hi. apply Hidle. apply elem_of_seq in Hi. lia.
Qed.

(** The loop when form [i] delivers a text. *)
Lemma conversation_loop_submit w ui i s l text lk t r :
  s !! "messages" = Some (SMessages l) ->
  submits_at ui i = Some text ->
  i <= length l / 2 ->
  exists t',
    conversation_loop w ui (mkMachine s lk t r) =
    submitted_branch w text (mkMachine s lk t' r).
Proof.
  intros Hl Hsub Hi. unfold conversation_loop.
  run_quiet (quiet_get_messages s l Hl). subst.
  eapply for_range_submit; [done..|]. apply elem_of_seq. lia.
Qed.

(** ** What the submitted branch stores *)

(** C2: when the user turn has been stored and anything at all is raised
    while the pipeline runs (in the embedding or search call, while the
    prompt is sent, or while the stream is read; handled on the way or
    not), the branch stores the fixed apology, and nothing else, as the
    content of the assistant turn. *)
Theorem pipeline_exception_stores_apology w text m l m0 :
  session_state m !! "messages" = Some (SMessages l) ->
  save_user_message text m = (Returns tt, m0) ->
  raised (snd (answer_turn w text m0)) <> raised m0 ->
  exists m',
    submitted_branch w text m = (Raises (mkExn ClsRerun ""), m') /\
    session_state m' !! "messages" =
      Some (SMessages (l ++ [mkTurn user text;
                             mkTurn assistant apology_message])).
Proof.
  intros Hl Hsave Hraised.
  destruct (submitted_branch_spec w text m l Hl)
    as (m0' & r & m1 & m' & Hsave' & _ & Hans & _ & Hrun & Hs').
  rewrite Hsave in Hsave'. injection Hsave' as <-.
  apply answer_turn_after_exception in Hraised.
  rewrite Hans in Hraised. injection Hraised as ->.
  exists m'. split; [done|]. rewrite Hs'. apply lookup_insert_eq.
Qed.

(** C7 (as the code has it): for a non-empty record list, when the
    generator runs to its end without raising, the content stored for the
    assistant turn is the concatenation, in order, of the fragments it
    yielded. *)
Theorem stored_answer_concatenates_fragments w text m l m0 docs m1 frags m2 :
  session_state m !! "messages" = Some (SMessages l) ->
  save_user_message text m = (Returns tt, m0) ->
  retrieve_documents w text m0 = (Returns docs, m1) ->
  docs <> [] ->
  pull_all (generate_answer w text docs) m1 = (frags, Returns tt, m2) ->
  exists m',
    submitted_branch w text m = (Raises (mkExn ClsRerun ""), m') /\
    session_state m' !! "messages" =
      Some (SMessages (l ++ [mkTurn user text;
                             mkTurn assistant (String.concat "" frags)])).
Proof.
  intros Hl Hsave Hdocs _ Hpull.
  destruct (submitted_branch_spec w text m l Hl)
    as (m0' & r & m1' & m' & Hsave' & _ & Hans & _ & Hrun & Hs').
  rewrite Hsave in Hsave'. injection Hsave' as <-.
  rewrite answer_turn_spec, Hdocs, Hpull in Hans. injection Hans as <- <-.
  exists m'. split; [done|]. rewrite Hs'. apply lookup_insert_eq.
Qed.

(** ** Render passes *)

Lemma quiet_secret cfg key s :
  is_Some (secrets cfg !! key) -> quiet s (secret cfg key) (fun _ => True).
Proof. intros [v Hv]. unfold secret. rewrite Hv. by apply quiet_ret. Qed.

Lemma environment_setup_quiet cfg s :
  deployment_ok cfg -> quiet s (environment_setup cfg) (fun _ => True).
Proof.
  intros (Hg & Hq & Ht & Hu & Hclient). unfold environment_setup, call.
  rewrite Hclient.
  do 4 (eapply quiet_bind; [by apply quiet_secret|intros ? _]).
  repeat quiet_step.
Qed.

(** In a configured deployment the setup only builds the client. *)
Lemma environment_setup_run cfg m :
  deployment_ok cfg ->
  exists url key,
    environment_setup cfg m =
    (Returns tt,
     mkMachine (session_state m) (limit_k m)
       (trace m ++ [EvQdrantClient url key true 120%float]) (raised m)).
Proof.
  intros ([? Hg] & [key Hq] & [? Ht] & [url Hu] & Hclient).
  exists url, key. unfold environment_setup, secret, call.
  rewrite Hg, Hq, Ht, Hu, Hclient. reflexivity.
Qed.

Section ConfiguredDeployment.

Variable cfg : deployment.
Hypothesis cfg_ok : deployment_ok cfg.

(** A pass on an exited session shows the closing message and stops. *)
Lemma render_pass_exited w ui s :
  exited_flag s = true ->
  pass_session (render_pass cfg w ui s) = s /\
  rendered (render_pass cfg w ui s) = [EvMarkdown closing_message false] /\
  pass_ended (render_pass cfg w ui s) = Stopped.
Proof.
  intros Hflag. unfold render_pass, page.
  destruct (environment_setup_run cfg (mkMachine s None [] []) cfg_ok)
    as (url & key & Hsetup).
  rewrite (bind_returns _ _ _ _ _ Hsetup).
  by erewrite bind_raises by by apply exit_state_handler_exited.
Qed.

(** A pass on a live session reaches the conversation loop with the
    history in place. *)
Lemma page_live w ui s :
  exited_flag s = false ->
  messages_ok s ->
  exists t,
    page cfg w ui (mkMachine s None [] []) =
    (conversation_loop w ui ;; exit_button ui ;; auto_scroll_and_footer)%script
      (mkMachine (<["messages" := SMessages (history s)]> s) None t []).
Proof.
  intros Hflag Hok. unfold page.
  run_quiet (environment_setup_quiet cfg s cfg_ok).
  run_quiet (exit_state_handler_live s Hflag).
  run_quiet (page_config_quiet s).
  erewrite bind_returns by by apply initialize_session_state_spec.
  simpl. eauto.
Qed.

Lemma lookup_messages_insert (s : gmap string sval) l :
  <["messages" := SMessages l]> s !! "messages" = Some (SMessages l).
Proof. apply lookup_insert_eq. Qed.

(** The pass in which form [i] delivers a text is the submitted branch. *)
Lemma page_submit w i text s :
  exited_flag s = false ->
  messages_ok s ->
  i <= length (history s) / 2 ->
  text <> "" ->
  exists t,
    page cfg w (FormSubmit i text) (mkMachine s None [] []) =
    submitted_branch w text
      (mkMachine (<["messages" := SMessages (history s)]> s) None t []).
Proof.
  intros Hflag Hok Hi Htext.
  destruct (page_live w (FormSubmit i text) s Hflag Hok) as [t ->].
  assert (Hsub : submits_at (FormSubmit i text) i = Some text).
  { simpl. by rewrite bool_decide_eq_true_2, bool_decide_eq_false_2. }
  destruct (conversation_loop_submit w _ i _ _ text None t []
              (lookup_messages_insert s (history s)) Hsub Hi) as [t' Hloop].
  destruct (submitted_branch_raises w text (mkMachine _ None t' []) _
              (lookup_messages_insert s (history s))) as [m' Hraise].
  exists t'. rewrite Hraise in Hloop.
  by rewrite (bind_raises _ _ _ _ _ Hloop).
Qed.

(** The pass in which the exit button was pressed. *)
Lemma render_pass_exit w s :
  exited_flag s = false ->
  messages_ok s ->
  exists rendered,
    render_pass cfg w ExitPressed s =
    mkPassResult {["exited" := SBool true]} rendered RerunRequested.
Proof.
  intros Hflag Hok. unfold render_pass.
  destruct (page_live w ExitPressed s Hflag Hok) as [t ->].
  run_quiet (conversation_loop_idle w ExitPressed _ _
               (lookup_messages_insert s (history s)) (fun _ _ => eq_refl)).
  erewrite bind_raises by apply exit_button_pressed.
  simpl. eauto.
Qed.

(** Any other pass renders and leaves the session as it is, the history
    being created if the session had none. *)
Lemma render_pass_idle w ui s :
  exited_flag s = false ->
  messages_ok s ->
  (forall i, i <= length (history s) / 2 -> submits_at ui i = None) ->
  ui <> ExitPressed ->
  exists rendered,
    render_pass cfg w ui s =
    mkPassResult (<["messages" := SMessages (history s)]> s) rendered Completed.
Proof.
  intros Hflag Hok Hidle Hui. unfold render_pass.
  destruct (page_live w ui s Hflag Hok) as [t ->].
  run_quiet (conversation_loop_idle w ui _ _
               (lookup_messages_insert s (history s)) Hidle).
  run_quiet (exit_button_idle (<["messages" := SMessages (history s)]> s) ui Hui).
  lazymatch goal with
  | |- context [auto_scroll_and_footer ?m] =>
      destruct (auto_scroll_and_footer_quiet _ m eq_refl) as (? & t' & -> & _)
  end.
  simpl. eauto.
Qed.

Lemma render_pass_submit w i text s :
  exited_flag s = false ->
  messages_ok s ->
  i <= length (history s) / 2 ->
  text <> "" ->
  exists response_text rendered,
    render_pass cfg w (FormSubmit i text) s =
    mkPassResult
      (<["messages" := SMessages (history s ++ [mkTurn user text;
                                                mkTurn assistant response_text])]> s)
      rendered RerunRequested.
Proof.
  intros Hflag Hok Hi Htext. unfold render_pass.
  destruct (page_submit w i text s Hflag Hok Hi Htext) as [t ->].
  destruct (submitted_branch_spec w text (mkMachine _ None t []) _
              (lookup_messages_insert s (history s)))
    as (m0 & r & m1 & m' & _ & _ & _ & _ & -> & Hs').
  simpl in Hs'. rewrite insert_insert_eq in Hs'.
  exists r, (trace m'). by rewrite Hs'.
Qed.

(** The four ways a pass can leave the session. *)
Lemma render_pass_session w ui s :
  messages_ok s ->
  let s' := pass_session (render_pass cfg w ui s) in
  (exited_flag s = true /\ s' = s) \/
  (exited_flag s = false /\
   (s' = {["exited" := SBool true]} \/
    s' = <["messages" := SMessages (history s)]> s \/
    exists text response_text,
      s' = <["messages" := SMessages (history s ++ [mkTurn user text;
                                                    mkTurn assistant response_text])]> s)).
Proof.
  intros Hok s'. subst s'.
  destruct (exited_flag s) eqn:Hflag.
  { left. split; [done|]. by apply render_pass_exited. }
  right. split; [done|].
  destruct ui as [|i text|].
  - destruct (render_pass_idle w NoInteraction s Hflag Hok) as [t ->]; auto.
  - destruct (decide (i <= length (history s) / 2 /\ text <> "")) as [[Hi Ht]|Hno].
    + destruct (render_pass_submit w i text s Hflag Hok Hi Ht) as (r & t & ->).
      right. right. eauto.
    + destruct (render_pass_idle w (FormSubmit i text) s Hflag Hok) as [t ->];
        auto.
      intros j Hj. simpl. repeat case_bool_decide; simpl; try done.
      subst. destruct Hno. done.
  - destruct (render_pass_exit w s Hflag Hok) as [t ->]. auto.
Qed.

Lemma alternating_app_pair l q r :
  alternating l ->
  Nat.even (length l) = true ->
  alternating (l ++ [mkTurn user q; mkTurn assistant r]).
Proof.
  intros Halt Heven i t Hi.
  destruct (decide (i < length l)) as [Hlt|Hge].
  - rewrite lookup_app_l in Hi by done. by apply Halt.
  - rewrite lookup_app_r in Hi by lia.
    destruct (i - length l) as [|[|k]] eqn:Hk; simpl in Hi; [| |done].
    + injection Hi as <-. replace i with (length l) by lia. by rewrite Heven.
    + injection Hi as <-. replace i with (S (length l)) by lia.
      by rewrite Nat.even_succ, <- Nat.negb_even, Heven.
Qed.

Lemma alternating_app_user l q :
  alternating l ->
  Nat.even (length l) = true ->
  alternating (l ++ [mkTurn user q]).
Proof.
  intros Halt Heven i t Hi.
  destruct (decide (i < length l)) as [Hlt|Hge].
  - rewrite lookup_app_l in Hi by done. by apply Halt.
  - rewrite lookup_app_r in Hi by lia.
    destruct (i - length l) as [|k] eqn:Hk; simpl in Hi; [|done].
    injection Hi as <-. replace i with (length l) by lia. by rewrite Heven.
Qed.

Lemma exited_flag_after_exit :
  exited_flag {["exited" := SBool true]} = true.
Proof. unfold exited_flag. by rewrite lookup_singleton_eq. Qed.

Lemma exited_flag_insert_messages s l :
  exited_flag (<["messages" := SMessages l]> s) = exited_flag s.
Proof. unfold exited_flag. by rewrite lookup_insert_ne. Qed.

Lemma session_inv_insert s l :
  exited_flag s = false ->
  alternating l ->
  Nat.even (length l) = true ->
  session_inv (<["messages" := SMessages l]> s).
Proof.
  intros Hflag Halt Heven. unfold session_inv, messages_ok.
  rewrite history_insert, exited_flag_insert_messages, lookup_insert_eq.
  by rewrite Hflag.
Qed.

Lemma reachable_inv s : reachable cfg s -> session_inv s.
Proof.
  induction 1 as [|s w ui _ (Hok & Halt & Heven & Hexit)].
  - by repeat split.
  - destruct (render_pass_session w ui s Hok)
      as [[Hflag ->]|[Hflag [->|[->|(text & r & ->)]]]].
    + done.
    + by repeat split.
    + by apply session_inv_insert.
    + apply session_inv_insert; [done| |].
      * by apply alternating_app_pair.
      * rewrite length_app, Nat.even_add, Heven. done.
Qed.

(** ** The conversation controller *)

(** C6: pressing the exit button in any reachable session leaves a
    session that holds the exit flag and nothing else; from then on every
    pass, whatever the user does, leaves that session as it is, renders
    the closing message alone and stops, and the session has no history
    entry. *)
Theorem exit_ends_the_session s w :
  reachable cfg s ->
  pass_session (render_pass cfg w ExitPressed s) = {["exited" := SBool true]} /\
  forall passes w' ui',
    let s' :=
      session_after cfg (pass_session (render_pass cfg w ExitPressed s)) passes in
    s' = {["exited" := SBool true]} /\
    s' !! "messages" = None /\
    pass_session (render_pass cfg w' ui' s') = s' /\
    rendered (render_pass cfg w' ui' s') = [EvMarkdown closing_message false] /\
    pass_ended (render_pass cfg w' ui' s') = Stopped.
Proof.
  intros Hreach.
  destruct (reachable_inv s Hreach) as (Hok & _ & _ & Hexit).
  assert (Hs1 : pass_session (render_pass cfg w ExitPressed s) =
                {["exited" := SBool true]}).
  { destruct (exited_flag s) eqn:Hflag.
    - destruct (render_pass_exited w ExitPressed s Hflag) as [-> _].
      by apply Hexit.
    - by destruct (render_pass_exit w s Hflag Hok) as [t ->]. }
  split; [done|]. rewrite Hs1. clear s Hreach Hok Hexit Hs1.
  assert (Hstay : forall passes,
             session_after cfg {["exited" := SBool true]} passes =
             {["exited" := SBool true]}).
  { induction passes as [|[w1 ui1] rest IH]; simpl; [done|].
    by destruct (render_pass_exited w1 ui1 _ exited_flag_after_exit)
      as [-> _]. }
  intros passes w' ui'. simpl. rewrite Hstay.
  split; [done|]. split; [done|].
  apply render_pass_exited, exited_flag_after_exit.
Qed.

End ConfiguredDeployment.

(** ** The context formatter *)





(** ** The formatter leaves its records alone *)

Lemma dict_get_record (h : store) r (d : doc) key fallback :
  h !! r = Some (ObjDict d) ->
  dict_get r key fallback h = (Returns (default fallback (d !! key)), h).
Proof. intros Hr. unfold dict_get. by rewrite Hr. Qed.

Lemma store_bind_returns {A B} (c : OnStore A) (k : A -> OnStore B) h a h' :
  c h = (Returns a, h') -> store_bind c k h = k a h'.
Proof. intros Hc. unfold store_bind. by rewrite Hc. Qed.

Lemma format_line_at_record (h : store) r (d : doc) :
  h !! r = Some (ObjDict d) ->
  format_line_at r h = (Returns (format_line d), h).
Proof.
  intros Hr. unfold format_line_at.
  rewrite !(store_bind_returns _ _ _ _ _ (dict_get_record h r d _ _ Hr)).
  unfold store_ret, format_line, get_str.
  by destruct (d !! "product_name"), (d !! "description"),
    (d !! "product_image_link").
Qed.

Lemma comprehension_records (h : store) items records :
  Forall2 (fun r d => h !! r = Some (ObjDict d)) items records ->
  comprehension format_line_at items h =
  (Returns (map format_line records), h).
Proof.
  induction 1 as [|r d items records Hr _ IH]; [done|].
  cbn [comprehension map].
  rewrite (store_bind_returns _ _ _ _ _ (format_line_at_record h r d Hr)).
  by rewrite (store_bind_returns _ _ _ _ _ IH).
Qed.

Lemma format_context_at_records (h : store) docs items records :
  h !! docs = Some (ObjList items) ->
  Forall2 (fun r d => h !! r = Some (ObjDict d)) items records ->
  format_context_at docs h = (Returns (format_context records), h).
Proof.
  intros Hdocs Hitems. unfold format_context_at.
  assert (Hl : list_items docs h = (Returns items, h))
    by (unfold list_items; by rewrite Hdocs).
  rewrite (store_bind_returns _ _ _ _ _ Hl).
  by rewrite (store_bind_returns _ _ _ _ _ (comprehension_records h _ _ Hitems)).
Qed.

(** C8: called on a reference to a list of references to records (the
    same record may be listed more than once), the formatter returns what
    the records' values determine and leaves the list and every record
    in the store as they were; so a second call on the same list returns
    the same string, and the store after both calls is the store before
    them. *)
Theorem format_context_twice (h : store) docs items records :
  h !! docs = Some (ObjList items) ->
  Forall2 (fun r d => h !! r = Some (ObjDict d)) items records ->
  (first <~ format_context_at docs ;;
   second <~ format_context_at docs ;;
   store_ret (first, second))%store h =
  (Returns (format_context records, format_context records), h).
Proof.
  intros Hdocs Hitems.
  by rewrite !(store_bind_returns _ _ _ _ _
                 (format_context_at_records h docs items records Hdocs Hitems)).
Qed.

(** ** Runs on concrete sessions *)

Lemma deployment_configured_ok : deployment_ok deployment_configured.
Proof. repeat split; by eexists. Qed.


Lemma format_context_twice_witness :
  (store_two_records !! 0 = Some (ObjList [1; 2; 1]) /\
   Forall2 (fun r d => store_two_records !! r = Some (ObjDict d))
     [1; 2; 1] [serum_a; serum_b; serum_a]) /\
  (first <~ format_context_at 0 ;;
   second <~ format_context_at 0 ;;
   store_ret (first, second))%store store_two_records =
  (Returns (format_context [serum_a; serum_b; serum_a],
            format_context [serum_a; serum_b; serum_a]),
   store_two_records).
Proof.
  assert (H1 : store_two_records !! 0 = Some (ObjList [1; 2; 1]))
    by reflexivity.
  assert (H2 : Forall2 (fun r d => store_two_records !! r = Some (ObjDict d))
                 [1; 2; 1] [serum_a; serum_b; serum_a])
    by (repeat constructor).
  split; [by split|].
  exact (format_context_twice store_two_records 0 _ _ H1 H2).
Defined.

Lemma pipeline_exception_stores_apology_witness :
  (session_state (machine0 session_empty_history) !! "messages" =
     Some (SMessages []) /\
   save_user_message "halo" (machine0 session_empty_history) =
     (Returns tt, machine_after_save) /\
   raised (snd (answer_turn world_stream_breaks "halo" machine_after_save))
     <> raised machine_after_save) /\
  exists m',
    submitted_branch world_stream_breaks "halo" (machine0 session_empty_history) =
      (Raises (mkExn ClsRerun ""), m') /\
    session_state m' !! "messages" =
      Some (SMessages [mkTurn user "halo"; mkTurn assistant apology_message]).
Proof.
  assert (H1 : session_state (machine0 session_empty_history) !! "messages" =
               Some (SMessages [])) by reflexivity.
  assert (H2 : save_user_message "halo" (machine0 session_empty_history) =
               (Returns tt, machine_after_save)) by (vm_compute; reflexivity).
  assert (H3 : raised (snd (answer_turn world_stream_breaks "halo"
                              machine_after_save))
               <> raised machine_after_save) by (vm_compute; discriminate).
  split; [by repeat split|].
  exact (pipeline_exception_stores_apology world_stream_breaks "halo"
           (machine0 session_empty_history) [] machine_after_save H1 H2 H3).
Defined.

Lemma retrieve_documents_embedding_failure_witness :
  embed_text world_embed_down "halo" (machine0 ∅) =
    (Returns None, machine_embed_down) /\
  retrieve_documents world_embed_down "halo" (machine0 ∅) =
    (Returns [], machine_embed_down) /\
  search_calls (trace machine_embed_down) = search_calls (trace (machine0 ∅)).
Proof.
  assert (H : embed_text world_embed_down "halo" (machine0 ∅) =
              (Returns None, machine_embed_down)) by (vm_compute; reflexivity).
  split; [exact H|].
  exact (retrieve_documents_embedding_failure world_embed_down "halo"
           (machine0 ∅) machine_embed_down H).
Defined.

Lemma retrieve_documents_empty_embedding_witness :
  embed_text world_embed_empty "halo" (machine0 ∅) =
    (Returns (Some []), machine_embed_empty) /\
  retrieve_documents world_embed_empty "halo" (machine0 ∅) =
    (Returns [], machine_embed_empty) /\
  search_calls (trace machine_embed_empty) = search_calls (trace (machine0 ∅)).
Proof.
  assert (H : embed_text world_embed_empty "halo" (machine0 ∅) =
              (Returns (Some []), machine_embed_empty))
    by (vm_compute; reflexivity).
  split; [exact H|].
  destruct (retrieve_documents_empty_embedding world_embed_empty "halo"
              (machine0 ∅) machine_embed_empty H) as (Hr & Hs & _).
  exact (conj Hr Hs).
Defined.

Lemma generate_answer_yields_strings_witness :
  ([serum_a] <> [] /\
   get_together_client_result world_ok = Returns tt /\
   completions_create world_ok
     (mkCompletionRequest "meta-llama/Llama-3.3-70B-Instruct-Turbo-Free"
        [("user", build_prompt world_ok "halo" [serum_a])] true)
   = Returns (map Returns three_chunks) /\
   Forall (fun ch => choices ch <> []) three_chunks) /\
  exists m',
    pull_all (generate_answer world_ok "halo" [serum_a]) (machine0 ∅) =
    (["Serum A "; ""; "cocok."], Returns tt, m').
Proof.
  assert (H1 : [serum_a] <> []) by discriminate.
  assert (H4 : Forall (fun ch => choices ch <> []) three_chunks)
    by (repeat constructor; discriminate).
  split; [by repeat split|].
  destruct (generate_answer_yields_strings world_ok "halo" [serum_a]
              three_chunks (machine0 ∅) H1 eq_refl eq_refl H4) as [Hrun _].
  exact Hrun.
Defined.

Lemma stored_answer_concatenates_fragments_witness :
  (session_state (machine0 session_empty_history) !! "messages" =
     Some (SMessages []) /\
   save_user_message "halo" (machine0 session_empty_history) =
     (Returns tt, machine_after_save) /\
   retrieve_documents world_ok "halo" machine_after_save =
     (Returns [serum_a; serum_b], machine_after_search) /\
   [serum_a; serum_b] <> [] /\
   pull_all (generate_answer world_ok "halo" [serum_a; serum_b])
     machine_after_search =
     (["Serum A "; ""; "cocok."], Returns tt, machine_after_stream)) /\
  exists m',
    submitted_branch world_ok "halo" (machine0 session_empty_history) =
      (Raises (mkExn ClsRerun ""), m') /\
    session_state m' !! "messages" =
      Some (SMessages [mkTurn user "halo"; mkTurn assistant "Serum A cocok."]).
Proof.
  assert (H1 : session_state (machine0 session_empty_history) !! "messages" =
               Some (SMessages [])) by reflexivity.
  assert (H2 : save_user_message "halo" (machine0 session_empty_history) =
               (Returns tt, machine_after_save)) by (vm_compute; reflexivity).
  assert (H3 : retrieve_documents world_ok "halo" machine_after_save =
               (Returns [serum_a; serum_b], machine_after_search))
    by (vm_compute; reflexivity).
  assert (H4 : [serum_a; serum_b] <> []) by discriminate.
  assert (H5 : pull_all (generate_answer world_ok "halo" [serum_a; serum_b])
                 machine_after_search =
               (["Serum A "; ""; "cocok."], Returns tt, machine_after_stream))
    by (vm_compute; reflexivity).
  split; [by repeat split|].
  exact (stored_answer_concatenates_fragments world_ok "halo"
           (machine0 session_empty_history) [] machine_after_save
           [serum_a; serum_b] machine_after_search
           ["Serum A "; ""; "cocok."] machine_after_stream H1 H2 H3 H4 H5).
Defined.

(** C7 as stated fails when the stream breaks: with a non-empty record
    list the generator yields "Serum A " and then raises; the content
    stored for the turn is the apology, not the concatenation of what was
    yielded. *)
Lemma stored_answer_is_apology_when_stream_breaks :
  retrieve_documents world_stream_breaks "halo" machine_after_save =
    (Returns [serum_a; serum_b], machine_after_search) /\
  [serum_a; serum_b] <> [] /\
  pull_all (generate_answer world_stream_breaks "halo" [serum_a; serum_b])
    machine_after_search =
    (["Serum A "], Raises timeout_error, machine_after_broken_stream) /\
  session_state
    (snd (submitted_branch world_stream_breaks "halo"
            (machine0 session_empty_history))) !! "messages" =
    Some (SMessages [mkTurn user "halo"; mkTurn assistant apology_message]) /\
  apology_message <> String.concat "" ["Serum A "].
Proof.
  split; [vm_compute; reflexivity|]. split; [discriminate|].
  split; [vm_compute; reflexivity|]. split; [vm_compute; reflexivity|].
  discriminate.
Qed.

Lemma exit_ends_the_session_witness :
  deployment_ok deployment_configured /\
  reachable deployment_configured session_empty_history /\
  pass_session
    (render_pass deployment_configured world_ok ExitPressed
       session_empty_history) =
    {["exited" := SBool true]} /\
  rendered
    (render_pass deployment_configured world_ok (FormSubmit 0 "halo")
       (session_after deployment_configured
          (pass_session
             (render_pass deployment_configured world_ok ExitPressed
                session_empty_history))
          [(world_ok, NoInteraction); (world_ok, FormSubmit 0 "halo")])) =
  [EvMarkdown closing_message false].
Proof.
  assert (H : reachable deployment_configured session_empty_history).
  { change session_empty_history
      with (pass_session
              (render_pass deployment_configured world_ok NoInteraction ∅)).
    apply reachable_pass, reachable_new. }
  split; [exact deployment_configured_ok|]. split; [exact H|].
  destruct (exit_ends_the_session deployment_configured
              deployment_configured_ok session_empty_history world_ok H)
    as [Hs Hafter].
  split; [exact Hs|].
  exact (proj1 (proj2 (proj2 (proj2
           (Hafter [(world_ok, NoInteraction); (world_ok, FormSubmit 0 "halo")]
              world_ok (FormSubmit 0 "halo")))))).
Defined.

(** * Further properties *)

(** ** More on the embedding client *)

(** X1: whatever is raised inside [embed_text] is either an [Exception],
    in which case the function returns [None] after showing one error
    message that ends the trace and carries the exception's text, or it is
    not, in which case it leaves the function unhandled. *)
Theorem embed_text_handles_exceptions w text m r m' :
  embed_text w text m = (r, m') ->
  raised m' <> raised m ->
  exists e,
    raised m' = (raised m ++ [e])%list /\
    if is_Exception e
    then r = Returns None /\
         exists t, trace m' =
                   (t ++ [EvError ("⚠️ Gagal membuat embedding: " ++ exn_str e)])%list
    else r = Raises e.
Proof.
  unfold embed_text, get_genai_client. run.
  destruct (get_genai_client_result w) as [[]|e1]; simpl.
  - destruct (embed_content w _) as [[|first rest]|e2]; simpl.
    + intros [= <- <-] _. exists IndexError. simpl. eauto.
    + by intros [= <- <-] [].
    + destruct (is_Exception e2) eqn:He; simpl; intros [= <- <-] _;
        exists e2; rewrite He; simpl; eauto.
  - destruct (is_Exception e1) eqn:He; simpl; intros [= <- <-] _;
      exists e1; rewrite He; simpl; eauto.
Qed.

(** X2: when nothing is raised inside [embed_text], the service has
    answered the request for this one text and the function returns the
    values of the first embedding of the answer, showing nothing. *)
Theorem embed_text_returns_first_embedding w text m r m' :
  embed_text w text m = (r, m') ->
  raised m' = raised m ->
  exists first rest,
    embed_content w (embed_request_for text) = Returns (first :: rest) /\
    r = Returns first /\
    trace m' = (trace m ++ [EvGenaiClient; EvEmbed (embed_request_for text)])%list.
Proof.
  unfold embed_text, get_genai_client, embed_request_for. run.
  destruct (get_genai_client_result w) as [[]|e1]; simpl.
  - destruct (embed_content w _) as [[|first rest]|e2]; simpl.
    + intros [= <- <-] Hr. simpl in Hr.
      by apply (f_equal length) in Hr; rewrite length_app in Hr; simpl in Hr; lia.
    + intros [= <- <-] _. exists first, rest. simpl.
      by rewrite <- app_assoc.
    + destruct (is_Exception e2); simpl; intros [= <- <-] Hr; simpl in Hr;
        by apply (f_equal length) in Hr; rewrite length_app in Hr; simpl in Hr; lia.
  - destruct (is_Exception e1); simpl; intros [= <- <-] Hr; simpl in Hr;
      by apply (f_equal length) in Hr; rewrite length_app in Hr; simpl in Hr; lia.
Qed.

(** ** More on the vector search client *)

Ltac count_more :=
  unfold search_calls, completion_calls; simpl;
  rewrite ?List.filter_app, ?length_app; simpl; lia.

Lemma retrieve_documents_footprint w query m r m' :
  retrieve_documents w query m = (r, m') ->
  session_state m' = session_state m /\
  search_calls (trace m') <= search_calls (trace m) + 1 /\
  completion_calls (trace m') = completion_calls (trace m) /\
  match r with
  | Returns _ => True
  | Raises e => is_Exception e = false
  end.
Proof.
  unfold retrieve_documents, embed_text, get_genai_client, set_limit_k,
    get_limit_k. run.
  destruct (get_genai_client_result w) as [[]|e1]; simpl.
  - destruct (embed_content w _) as [[|[[|x v]|] rest]|e2]; simpl;
      try destruct (is_Exception e2) eqn:He2; simpl;
      try (intros [= <- <-]; simpl; repeat split; try done; count_more).
    destruct (qdrant_search w _) as [results|e3]; simpl;
      try destruct (is_Exception e3) eqn:He3; simpl;
      intros [= <- <-]; simpl; repeat split; try done; count_more.
  - destruct (is_Exception e1) eqn:He1; simpl; intros [= <- <-]; simpl;
      repeat split; try done; count_more.
Qed.

(** X3: [retrieve_documents] leaves the session alone, sends at most one
    request to the vector index and no call to the completion service,
    and an exception that leaves it is never an [Exception]. *)
Theorem retrieve_documents_is_contained w query m r m' :
  retrieve_documents w query m = (r, m') ->
  session_state m' = session_state m /\
  search_calls (trace m') <= search_calls (trace m) + 1 /\
  completion_calls (trace m') = completion_calls (trace m) /\
  match r with
  | Returns _ => True
  | Raises e => is_Exception e = false
  end.
Proof. apply retrieve_documents_footprint. Qed.

(** X4: with a usable embedding, a search that raises an [Exception] makes
    [retrieve_documents] return the empty list, as a search without hits
    does, after showing one error message with the exception's text. *)
Theorem retrieve_documents_search_failure w query m x v m1 e :
  embed_text w query m = (Returns (Some (x :: v)), m1) ->
  qdrant_search w (search_request_for (Some (x :: v))) = Raises e ->
  is_Exception e = true ->
  retrieve_documents w query m =
  (Returns [],
   mkMachine (session_state m1) (Some 8%Z)
     (trace m1 ++ [EvSearch (search_request_for (Some (x :: v)));
                   EvError ("❌ Gagal mengambil dokumen: " ++ exn_str e)])
     (raised m1 ++ [e])).
Proof.
  intros Hembed Hsearch He. unfold retrieve_documents.
  rewrite (bind_returns _ _ _ _ _ Hembed). simpl.
  unfold set_limit_k, get_limit_k, search_request_for in *. run.
  rewrite Hsearch. simpl. rewrite He. simpl. by rewrite <- app_assoc.
Qed.

(** X5: with a usable embedding and an index that answers,
    [retrieve_documents] sends one request (limit 8, threshold 0.7, exact
    search, ef 512, payloads and vectors) for exactly that embedding,
    records 8 in the global [limit_k], and returns the payloads of the hits
    in the order of the answer, one per hit. *)
Theorem retrieve_documents_returns_payloads w query m x v m1 results :
  embed_text w query m = (Returns (Some (x :: v)), m1) ->
  qdrant_search w (search_request_for (Some (x :: v))) = Returns results ->
  exists docs,
    retrieve_documents w query m =
    (Returns docs,
     mkMachine (session_state m1) (Some 8%Z)
       (trace m1 ++ [EvSearch (search_request_for (Some (x :: v)))])
       (raised m1)) /\
    length docs = length results /\
    forall i, docs !! i = payload <$> results !! i.
Proof.
  intros Hembed Hsearch. exists (map payload results). split.
  - unfold retrieve_documents.
    rewrite (bind_returns _ _ _ _ _ Hembed). simpl.
    unfold set_limit_k, get_limit_k, search_request_for in *. run.
    by rewrite Hsearch.
  - split; [by rewrite length_map|]. intros i. apply list_lookup_fmap.
Qed.

(** ** More on the answer generator *)

(** Reading any stream: one fragment per readable chunk, in order, one
    read per fragment and one more for the read that ends it. *)
Lemma pull_all_stream_loop_any (s : stream) :
  forall response m,
  exists raised',
    pull_all (stream_loop s response) m =
    (map chunk_fragment (readable s), stream_ending s,
     mkMachine (session_state m) (limit_k m)
       (trace m ++ replicate (S (length (readable s))) EvStreamRead) raised') /\
    match stream_ending s with
    | Returns _ => raised' = raised m
    | Raises e => raised' = (raised m ++ [e])%list
    end.
Proof.
  induction s as [|item rest IH]; intros response m.
  - eexists. split; [reflexivity|done].
  - destruct item as [[[|first others]]|e]; simpl; run.
    + eexists. split; [reflexivity|done].
    + match goal with
      | |- context [pull_all (stream_loop rest ?r) ?m0] =>
          destruct (IH r m0) as (raised' & -> & Hraised)
      end.
      simpl in *. exists raised'. split; [|done].
      unfold chunk_fragment at 1. simpl. by rewrite <- app_assoc.
    + eexists. split; [reflexivity|done].
Qed.

Lemma generate_answer_open w query docs s m :
  docs <> [] ->
  get_together_client_result w = Returns tt ->
  completions_create w (completion_request_for w query docs) = Returns s ->
  exists raised',
    pull_all (generate_answer w query docs) m =
    (map chunk_fragment (readable s), stream_ending s,
     mkMachine (session_state m) (limit_k m)
       ((trace m ++ [EvTogetherClient;
                     EvCompletion (completion_request_for w query docs)]) ++
        replicate (S (length (readable s))) EvStreamRead)
       raised') /\
    match stream_ending s with
    | Returns _ => raised' = raised m
    | Raises e => raised' = (raised m ++ [e])%list
    end.
Proof.
  intros Hdocs Hclient Hcreate.
  unfold generate_answer, get_together_client, completion_request_for in *.
  simpl. rewrite bool_decide_eq_false_2 by done.
  run. rewrite Hclient, Hcreate. simpl.
  match goal with
  | |- context [resume (stream_loop s ?r) ?m0] =>
      pose proof (pull_all_stream_loop_any s r m0) as (raised' & Hloop & Hraised)
  end.
  destruct (stream_loop s "") as [r]. simpl in *.
  rewrite Hloop. exists raised'. split; [|done].
  by rewrite <- !app_assoc.
Qed.

(** X6: on the non-empty path, once the completion request is open, the
    generator yields one fragment per chunk, in arrival order, for the
    chunks that arrive before the first failing read and before the first
    chunk without a choice; it ends normally if there is no such failure
    and with that exception otherwise, after one stream read per fragment
    and one more; the session is not touched. *)
Theorem generate_answer_follows_the_stream w query docs s m :
  docs <> [] ->
  get_together_client_result w = Returns tt ->
  completions_create w (completion_request_for w query docs) = Returns s ->
  exists m',
    pull_all (generate_answer w query docs) m =
      (map chunk_fragment (readable s), stream_ending s, m') /\
    session_state m' = session_state m /\
    trace m' =
      ((trace m ++ [EvTogetherClient;
                    EvCompletion (completion_request_for w query docs)]) ++
       replicate (S (length (readable s))) EvStreamRead)%list.
Proof.
  intros Hdocs Hclient Hcreate.
  destruct (generate_answer_open w query docs s m Hdocs Hclient Hcreate)
    as (raised' & Hrun & _).
  eauto.
Qed.

Lemma stream_ending_unreadable (s : stream) (item : outcome chunk) :
  item ∈ s ->
  match item with
  | Returns ch => choices ch = []
  | Raises _ => True
  end ->
  exists e, stream_ending s = Raises e.
Proof.
  induction s as [|head rest IH]; intros Hin Hbad.
  - by apply elem_of_nil in Hin.
  - destruct head as [[[|first others]]|e]; simpl; eauto.
    apply elem_of_cons in Hin as [->|Hin]; [done|by apply IH].
Qed.

(** X7: a single chunk without a choice anywhere in the completion
    stream costs the whole answer: whatever was streamed before and after
    it, the pipeline hands back the apology. *)
Theorem chunk_without_choice_discards_answer w query m docs m1 s :
  retrieve_documents w query m = (Returns docs, m1) ->
  docs <> [] ->
  get_together_client_result w = Returns tt ->
  completions_create w (completion_request_for w query docs) = Returns s ->
  Returns (mkChunk []) ∈ s ->
  fst (answer_turn w query m) = Returns apology_message.
Proof.
  intros Hdocs Hne Hclient Hcreate Hin.
  destruct (stream_ending_unreadable s _ Hin eq_refl) as [e He].
  destruct (generate_answer_open w query docs s m1 Hne Hclient Hcreate)
    as (raised' & Hrun & _).
  by rewrite answer_turn_spec, Hdocs, Hrun, He.
Qed.

(** ** More on the per-turn pipeline *)

(** X8: the per-turn pipeline never raises: whatever the services do, it
    hands a text back, and it leaves the session as it found it. *)
Theorem answer_turn_always_answers w query m :
  exists response_text m',
    answer_turn w query m = (Returns response_text, m') /\
    session_state m' = session_state m.
Proof. apply answer_turn_total. Qed.

(** X9: when retrieval hands back no record (no hit, a failed search or
    an unusable embedding), the answer is the fixed message and the
    completion service has not been involved at all. *)
Theorem answer_turn_without_records w query m m1 :
  retrieve_documents w query m = (Returns [], m1) ->
  answer_turn w query m = (Returns no_info_message, m1) /\
  completion_calls (trace m1) = completion_calls (trace m).
Proof.
  intros Hdocs. split.
  - by rewrite answer_turn_spec, Hdocs.
  - by apply retrieve_documents_footprint in Hdocs as (_ & _ & ? & _).
Qed.

Lemma retrieve_documents_value w query m1 m2 :
  fst (retrieve_documents w query m1) = fst (retrieve_documents w query m2).
Proof.
  unfold retrieve_documents, embed_text, get_genai_client, set_limit_k,
    get_limit_k. run.
  destruct (get_genai_client_result w) as [[]|e1]; simpl.
  - destruct (embed_content w _) as [[|[[|x v]|] rest]|e2]; simpl;
      try destruct (is_Exception e2); simpl; try done.
    destruct (qdrant_search w _) as [results|e3]; simpl;
      try destruct (is_Exception e3); simpl; done.
  - by destruct (is_Exception e1).
Qed.

Lemma generate_answer_value w query docs m1 m2 :
  fst (pull_all (generate_answer w query docs) m1) =
  fst (pull_all (generate_answer w query docs) m2).
Proof.
  destruct docs as [|d docs]; [done|].
  destruct (get_together_client_result w) as [[]|e1] eqn:Hclient.
  - destruct (completions_create w (completion_request_for w query (d :: docs)))
      as [s|e2] eqn:Hcreate.
    + destruct (generate_answer_open w query (d :: docs) s m1) as (? & -> & _);
        try done.
      by destruct (generate_answer_open w query (d :: docs) s m2) as (? & -> & _).
    + unfold generate_answer, get_together_client, completion_request_for in *.
      simpl. run. by rewrite Hclient, Hcreate.
  - unfold generate_answer, get_together_client. simpl. run.
    by rewrite Hclient.
Qed.

Lemma answer_turn_value w query m1 m2 :
  fst (answer_turn w query m1) = fst (answer_turn w query m2).
Proof.
  rewrite !answer_turn_spec.
  pose proof (retrieve_documents_value w query m1 m2) as Hr.
  destruct (retrieve_documents w query m1) as [[docs1|e1] m1'],
           (retrieve_documents w query m2) as [[docs2|e2] m2'];
    simpl in Hr; try done.
  injection Hr as <-.
  pose proof (generate_answer_value w query docs1 m1' m2') as Hg.
  destruct (pull_all (generate_answer w query docs1) m1') as [[f1 [[]|x1]] n1],
           (pull_all (generate_answer w query docs1) m2') as [[f2 [[]|x2]] n2];
    simpl in Hg; try done.
  by injection Hg as <-.
Qed.

(** X10: the text the pipeline hands back depends on the question and on
    what the services answer, and on nothing else: neither the history nor
    anything else in the state of the script enters it. *)
Theorem answer_turn_ignores_the_session w query m1 m2 :
  fst (answer_turn w query m1) = fst (answer_turn w query m2).
Proof. apply answer_turn_value. Qed.

(** ** Computations with a known trace *)

Lemma emits_ret {A} s (a : A) : emits s (ret a) a [].
Proof. intros lk t0 r. unfold ret. by rewrite app_nil_r. Qed.

Lemma emits_bind {A B} s (c : M A) (k : A -> M B) a b t1 t2 :
  emits s c a t1 -> emits s (k a) b t2 -> emits s (bind c k) b (t1 ++ t2).
Proof.
  intros Hc Hk lk t0 r. rewrite (bind_returns _ _ _ _ _ (Hc lk t0 r)).
  by rewrite Hk, app_assoc.
Qed.

Lemma emits_eq {A} s (c : M A) a t t' :
  emits s c a t -> t = t' -> emits s c a t'.
Proof. by intros H <-. Qed.

Lemma emits_emit s ev : emits s (emit ev) tt [ev].
Proof. by intros lk t0 r. Qed.

Lemma emits_if {A} s (b : bool) (c1 c2 : M A) a t1 t2 :
  emits s c1 a t1 -> emits s c2 a t2 ->
  emits s (if b then c1 else c2) a (if b then t1 else t2).
Proof. by destruct b. Qed.

Lemma emits_get_messages s l :
  s !! "messages" = Some (SMessages l) -> emits s get_messages l [].
Proof.
  intros Hl lk t0 r. rewrite (get_messages_eq (mkMachine s lk t0 r) l Hl).
  by rewrite app_nil_r.
Qed.

Lemma emits_content_at s (l : list turn) idx t :
  l !! idx = Some t -> emits s (content_at l idx) (content t) [].
Proof. intros Hl. unfold content_at. rewrite Hl. apply emits_ret. Qed.

Ltac emits_step :=
  first [ apply emits_emit
        | apply emits_ret
        | eapply emits_get_messages; eassumption
        | eapply emits_content_at; eassumption
        | eapply emits_if
        | eapply emits_bind ].

Lemma emits_show_user s (l : list turn) i :
  emits s
    (if bool_decide (i * 2 < length l)
     then emit (EvChatMessage "user") ;;
          c <- content_at l (i * 2) ;;
          st_markdown c false
     else ret tt)
    tt
    match l !! (i * 2) with
    | Some t => [EvChatMessage "user"; EvMarkdown (content t) false]
    | None => []
    end.
Proof.
  unfold st_markdown. destruct (l !! (i * 2)) as [t|] eqn:Hu.
  - rewrite bool_decide_eq_true_2 by (by eapply lookup_lt_Some).
    eapply emits_eq; [repeat emits_step|done].
  - rewrite bool_decide_eq_false_2 by (apply lookup_ge_None in Hu; lia).
    apply emits_ret.
Qed.

Lemma emits_show_assistant s (l : list turn) i :
  emits s
    (if bool_decide (i * 2 + 1 < length l)
     then emit (EvChatMessage "assistant") ;;
          if bool_decide (Z.of_nat i = (Z.of_nat (length l) `div` 2 - 1)%Z)
          then c <- content_at l (i * 2 + 1) ;;
               st_markdown (last_message_div c) true
          else c <- content_at l (i * 2 + 1) ;;
               st_markdown c false
     else ret tt)
    tt
    match l !! (i * 2 + 1) with
    | Some t =>
        [EvChatMessage "assistant";
         if bool_decide (Z.of_nat i = (Z.of_nat (length l) `div` 2 - 1)%Z)
         then EvMarkdown (last_message_div (content t)) true
         else EvMarkdown (content t) false]
    | None => []
    end.
Proof.
  unfold st_markdown. destruct (l !! (i * 2 + 1)) as [t|] eqn:Ha.
  - rewrite (bool_decide_eq_true_2 (i * 2 + 1 < length l))
      by (by eapply lookup_lt_Some).
    eapply emits_eq; [repeat emits_step|].
    simpl. by case_bool_decide.
  - rewrite (bool_decide_eq_false_2 (i * 2 + 1 < length l))
      by (apply lookup_ge_None in Ha; lia).
    apply emits_ret.
Qed.

(** An iteration whose form is idle displays its slot. *)
Lemma emits_loop_body_idle w ui i s l :
  s !! "messages" = Some (SMessages l) ->
  submits_at ui i = None ->
  emits s (loop_body w ui i) tt (slot_events l i).
Proof.
  intros Hl Hidle. unfold loop_body, st_text_input, st_form_submit_button.
  assert (Hcond : (match ui with
                   | FormSubmit j _ => bool_decide (j = i)
                   | _ => false
                   end &&
                   negb (bool_decide
                     (match ui with
                      | FormSubmit j text => if bool_decide (j = i) then text else ""
                      | _ => ""
                      end = ""))) = false).
  { destruct ui as [|j text|]; simpl in *; try done.
    repeat case_bool_decide; simpl in *; done. }
  eapply emits_eq.
  { eapply emits_bind; [by apply emits_get_messages|].
    eapply emits_bind; [apply emits_emit|].
    eapply emits_bind; [eapply emits_bind; [apply emits_emit|apply emits_ret]|].
    eapply emits_bind; [eapply emits_bind; [apply emits_emit|apply emits_ret]|].
    eapply emits_bind; [eapply emits_if; [apply emits_emit|apply emits_ret]|].
    rewrite Hcond.
    eapply emits_bind; [apply emits_ret|].
    eapply emits_bind; [by apply emits_get_messages|].
    eapply emits_bind; [apply emits_show_user|].
    eapply emits_bind; [by apply emits_get_messages|].
    apply emits_show_assistant. }
  unfold slot_events, turn_events. simpl. by case_bool_decide.
Qed.

Lemma emits_for_range_idle w ui s l indices :
  s !! "messages" = Some (SMessages l) ->
  (forall i, i ∈ indices -> submits_at ui i = None) ->
  emits s (for_range indices (loop_body w ui)) tt
    (flat_map (slot_events l) indices).
Proof.
  intros Hl. induction indices as [|i rest IH]; intros Hidle;
    cbn [for_range flat_map].
  - apply emits_ret.
  - eapply emits_bind.
    + eapply emits_loop_body_idle; [done|]. apply Hidle. by left.
    + apply IH. intros j Hj. apply Hidle. by right.
Qed.

Lemma emits_conversation_loop_idle w ui s l :
  s !! "messages" = Some (SMessages l) ->
  (forall i, i <= length l / 2 -> submits_at ui i = None) ->
  emits s (conversation_loop w ui) tt
    (flat_map (slot_events l) (seq 0 (length l / 2 + 1))).
Proof.
  intros Hl Hidle. unfold conversation_loop.
  eapply emits_eq.
  { eapply emits_bind; [by apply emits_get_messages|].
    eapply emits_for_range_idle; [done|].
    intros i Hi. apply Hidle. apply elem_of_seq in Hi. lia. }
  done.
Qed.

Lemma emits_exit_state_handler s :
  exited_flag s = false -> emits s exit_state_handler tt [].
Proof.
  intros Hflag lk t0 r.
  unfold exited_flag, exit_state_handler, session_contains, session_get in *.
  run. destruct (s !! "exited") as [v|] eqn:Hs.
  - rewrite bool_decide_eq_true_2 by done. simpl. rewrite ?Hs. simpl.
    rewrite Hflag. by rewrite app_nil_r.
  - rewrite bool_decide_eq_false_2 by (by intros [? ?]). simpl.
    by rewrite app_nil_r.
Qed.

Lemma emits_exit_button_idle s ui :
  ui <> ExitPressed -> emits s (exit_button ui) tt [EvButton "❌ Exit"].
Proof.
  intros Hui. unfold exit_button, st_button.
  destruct ui; try done;
    (eapply emits_eq; [repeat emits_step|done]).
Qed.

(** ** More on render passes *)

Lemma render_pass_idle_exact cfg w ui s :
  deployment_ok cfg ->
  exited_flag s = false ->
  messages_ok s ->
  (forall i, i <= length (history s) / 2 -> submits_at ui i = None) ->
  ui <> ExitPressed ->
  exists url key,
    render_pass cfg w ui s =
    mkPassResult (<["messages" := SMessages (history s)]> s)
      (EvQdrantClient url key true 120%float :: view (history s))
      Completed.
Proof.
  intros Hcfg Hflag Hok Hidle Hui. unfold render_pass, page.
  destruct (environment_setup_run cfg (mkMachine s None [] []) Hcfg)
    as (url & key & Hsetup).
  exists url, key.
  rewrite (bind_returns _ _ _ _ _ Hsetup). simpl.
  rewrite (bind_returns _ _ _ _ _ (emits_exit_state_handler s Hflag _ _ _)).
  assert (Hconfig : emits s page_config tt
            [EvSetPageConfig "💊 Chatbot RAG Produk Skincare" "wide";
             EvTitle "💬 Chatbot RAG Produk Skincare";
             EvMarkdown intro_message false]).
  { unfold page_config, st_markdown.
    eapply emits_eq; [repeat emits_step|done]. }
  rewrite (bind_returns _ _ _ _ _ (Hconfig _ _ _)).
  erewrite bind_returns by by apply initialize_session_state_spec.
  simpl.
  set (s' := <["messages" := SMessages (history s)]> s).
  assert (Hl : s' !! "messages" = Some (SMessages (history s)))
    by apply lookup_insert_eq.
  rewrite (bind_returns _ _ _ _ _
             (emits_conversation_loop_idle w ui s' _ Hl Hidle _ _ _)).
  rewrite (bind_returns _ _ _ _ _ (emits_exit_button_idle s' ui Hui _ _ _)).
  assert (Hfooter : emits s' auto_scroll_and_footer tt
            [EvMarkdown autoscroll_script true;
             EvCaption "🧠 Creator : Hafiz Pambudi"]).
  { unfold auto_scroll_and_footer, st_markdown.
    eapply emits_eq; [repeat emits_step|done]. }
  rewrite (Hfooter _ _ _). simpl. unfold view.
  by rewrite <- !app_assoc.
Qed.

(** X11: in a configured deployment, a pass on a live session in which
    no form delivers a text and the exit button is not pressed runs to
    the last line, contacts no hosted service (the only call besides
    [st.*] is the construction of the database client), leaves the history
    as it is (creating the empty one if the session had none), and what it
    puts on the page is a function of the history alone. *)
Theorem idle_pass_renders_the_history cfg w ui s :
  deployment_ok cfg ->
  exited_flag s = false ->
  messages_ok s ->
  (forall i, i <= length (history s) / 2 -> submits_at ui i = None) ->
  ui <> ExitPressed ->
  exists url key,
    render_pass cfg w ui s =
    mkPassResult (<["messages" := SMessages (history s)]> s)
      (EvQdrantClient url key true 120%float :: view (history s))
      Completed.
Proof. apply render_pass_idle_exact. Qed.


(** ** The view *)









Lemma form_keys_slot_events l i :
  form_keys (slot_events l i) = ["chat_form_" ++ pretty i].
Proof.
  unfold slot_events, turn_events, form_keys.
  case_bool_decide;
    destruct (l !! (i * 2)) as [tu|], (l !! (i * 2 + 1)) as [ta|]; simpl;
    try case_bool_decide; reflexivity.
Qed.

Lemma form_keys_slots l indices :
  form_keys (flat_map (slot_events l) indices) =
  map (fun i => "chat_form_" ++ pretty i) indices.
Proof.
  induction indices as [|i indices IH]; cbn [flat_map map]; [done|].
  unfold form_keys in *. by rewrite omap_app, IH, form_keys_slot_events.
Qed.

Lemma form_keys_view (l : list turn) :
  form_keys (view l) =
  map (fun i => "chat_form_" ++ pretty i) (seq 0 (length l / 2 + 1)) /\
  length (form_keys (view l)) = length l / 2 + 1.
Proof.
  assert (H : form_keys (view l) =
              map (fun i => "chat_form_" ++ pretty i)
                (seq 0 (length l / 2 + 1))).
  { unfold view, form_keys. rewrite !omap_app.
    fold (form_keys (flat_map (slot_events l) (seq 0 (length l / 2 + 1)))).
    rewrite form_keys_slots. cbn [omap]. by rewrite app_nil_r. }
  split; [done|]. by rewrite H, length_map, length_seq.
Qed.

(** ** More on sessions *)

Section MoreOnConfiguredDeployment.

Variable cfg : deployment.
Hypothesis cfg_ok : deployment_ok cfg.

(** How a pass on a well-formed session can end. *)
Lemma render_pass_ended w ui s :
  messages_ok s ->
  pass_ended (render_pass cfg w ui s) = Completed \/
  pass_ended (render_pass cfg w ui s) = Stopped \/
  pass_ended (render_pass cfg w ui s) = RerunRequested.
Proof.
  intros Hok. destruct (exited_flag s) eqn:Hflag.
  { right. left. by apply render_pass_exited. }
  destruct ui as [|i text|].
  - destruct (render_pass_idle cfg cfg_ok w NoInteraction s Hflag Hok)
      as [t ->]; auto.
  - destruct (decide (i <= length (history s) / 2 /\ text <> ""))
      as [[Hi Ht]|Hno].
    + destruct (render_pass_submit cfg cfg_ok w i text s Hflag Hok Hi Ht)
        as (r & t & ->). auto.
    + destruct (render_pass_idle cfg cfg_ok w (FormSubmit i text) s Hflag Hok)
        as [t ->]; auto.
      intros j Hj. simpl. repeat case_bool_decide; simpl; try done.
      subst. by destruct Hno.
  - destruct (render_pass_exit cfg cfg_ok w s Hflag Hok) as [t ->]. auto.
Qed.

(** X14: in a configured deployment no pass on a reachable session ends
    in an uncaught exception, whatever the user does and whatever the
    hosted services answer or raise: it runs to the last line, stops on the
    closing message, or asks for a rerun. *)
Theorem reachable_pass_never_crashes s w ui :
  reachable cfg s ->
  pass_ended (render_pass cfg w ui s) = Completed \/
  pass_ended (render_pass cfg w ui s) = Stopped \/
  pass_ended (render_pass cfg w ui s) = RerunRequested.
Proof.
  intros Hreach. apply render_pass_ended.
  by destruct (reachable_inv cfg cfg_ok s Hreach) as [Hok _].
Qed.

(** X15: the history only grows by appending: after any pass on a
    reachable session either the old history is a prefix of the new one,
    or the pass was the exit and left nothing but the exit flag. *)
Theorem history_is_append_only s w ui :
  reachable cfg s ->
  history s `prefix_of` history (pass_session (render_pass cfg w ui s)) \/
  pass_session (render_pass cfg w ui s) = {["exited" := SBool true]}.
Proof.
  intros Hreach.
  destruct (reachable_inv cfg cfg_ok s Hreach) as [Hok _].
  destruct (render_pass_session cfg cfg_ok w ui s Hok)
    as [[_ ->]|[_ [->|[->|(text & r & ->)]]]].
  - by left.
  - by right.
  - left. by rewrite history_insert.
  - left. rewrite history_insert. by apply prefix_app_r.
Qed.

End MoreOnConfiguredDeployment.

Ltac listed :=
  repeat first [apply list_elem_of_here | apply list_elem_of_further].

(** X16: if the deployment does not provide one of the four secrets the
    script reads, every pass is ended by the framework's own error for
    one of the missing secrets, an exception of class [Exception] that
    nothing in the script catches, before the script displays anything
    and before it makes any call; the session is left as it was. *)
Theorem missing_secret_stops_every_pass cfg w ui s key :
  key ∈ ["google_api_key"; "qdrant_api_key"; "together_api_key"; "QDRANT_URL"] ->
  secrets cfg !! key = None ->
  exists missing,
    missing ∈ ["google_api_key"; "qdrant_api_key"; "together_api_key";
               "QDRANT_URL"] /\
    secrets cfg !! missing = None /\
    render_pass cfg w ui s =
    mkPassResult s []
      (Crashed (mkExn ClsException (secret_error cfg missing))).
Proof.
  intros Hkey Hnone.
  unfold render_pass, page, environment_setup, secret. run.
  destruct (secrets cfg !! "google_api_key") as [g|] eqn:Hg; simpl;
    [|exists "google_api_key"; split; [listed|done]].
  destruct (secrets cfg !! "qdrant_api_key") as [q|] eqn:Hq; simpl;
    [|exists "qdrant_api_key"; split; [listed|done]].
  destruct (secrets cfg !! "together_api_key") as [t|] eqn:Ht; simpl;
    [|exists "together_api_key"; split; [listed|done]].
  destruct (secrets cfg !! "QDRANT_URL") as [u|] eqn:Hu; simpl;
    [|exists "QDRANT_URL"; split; [listed|done]].
  exfalso. set_unfold in Hkey.
  destruct Hkey as [->|[->|[->|[->|[]]]]]; congruence.
Qed.


Lemma filter_display_slot_events l i :
  List.filter is_display (slot_events l i) = slot_events l i.
Proof.
  unfold slot_events, turn_events.
  case_bool_decide;
    destruct (l !! (i * 2)) as [tu|], (l !! (i * 2 + 1)) as [ta|]; simpl;
    try case_bool_decide; reflexivity.
Qed.

(** Everything in the view is something displayed. *)
Lemma filter_display_view l : List.filter is_display (view l) = view l.
Proof.
  unfold view. rewrite !List.filter_app. f_equal. f_equal.
  induction (seq 0 (length l / 2 + 1)) as [|i indices IH];
    cbn [flat_map]; [done|].
  by rewrite List.filter_app, filter_display_slot_events, IH.
Qed.


(** X13: in a configured deployment, on a pass on a live session in
    which no form delivers a text and the exit button is not pressed, the
    page offers one input form per complete pair of the history and one
    more for the next question, keyed [chat_form_0], [chat_form_1], ...
    in this order. *)
Theorem idle_pass_offers_a_form_per_pair cfg w ui s :
  deployment_ok cfg ->
  exited_flag s = false ->
  messages_ok s ->
  (forall i, i <= length (history s) / 2 -> submits_at ui i = None) ->
  ui <> ExitPressed ->
  form_keys (rendered (render_pass cfg w ui s)) =
    map (fun i => "chat_form_" ++ pretty i)
      (seq 0 (length (history s) / 2 + 1)) /\
  length (form_keys (rendered (render_pass cfg w ui s))) =
    length (history s) / 2 + 1.
Proof.
  intros Hcfg Hflag Hok Hidle Hui.
  destruct (render_pass_idle_exact cfg w ui s Hcfg Hflag Hok Hidle Hui)
    as (url & key & ->).
  unfold rendered. cbn [pass_trace List.filter is_display].
  rewrite filter_display_view. apply form_keys_view.
Qed.

Section SubmitThenRerun.

Variable cfg : deployment.
Hypothesis cfg_ok : deployment_ok cfg.


End SubmitThenRerun.

(** ** More on the context formatter *)

Lemma join_app sep (xs ys : list string) :
  xs <> [] -> ys <> [] ->
  join sep (xs ++ ys) = join sep xs ++ sep ++ join sep ys.
Proof.
  intros Hxs Hys. induction xs as [|x xs IH]; [done|].
  destruct xs as [|x' xs].
  - destruct ys; [done|]. reflexivity.
  - change (join sep ((x :: x' :: xs) ++ ys))
      with (x ++ sep ++ join sep ((x' :: xs) ++ ys)).
    rewrite IH by done.
    change (join sep (x :: x' :: xs)) with (x ++ sep ++ join sep (x' :: xs)).
    by rewrite !append_assoc.
Qed.

(** X18: formatting two non-empty record lists one after the other is
    formatting each and putting one newline between the results. *)
Theorem format_context_app (docs1 docs2 : list doc) :
  docs1 <> [] -> docs2 <> [] ->
  format_context (docs1 ++ docs2) =
  format_context docs1 ++ nl ++ format_context docs2.
Proof.
  intros H1 H2. unfold format_context. rewrite map_app.
  apply join_app; by destruct docs1, docs2.
Qed.

Lemma newlines_app (s t : string) :
  newlines (s ++ t) = newlines s + newlines t.
Proof.
  induction s as [|c s IH]; [done|].
  rewrite append_cons. cbn [newlines]. rewrite IH. lia.
Qed.

Lemma newlines_format_line d : newlines (format_line d) = field_newlines d.
Proof.
  unfold format_line, field_newlines. rewrite !newlines_app.
  change (newlines "- ") with 0. change (newlines ", ") with 0.
  change (newlines " (Gambar: ") with 0. change (newlines ")") with 0.
  lia.
Qed.

(** X19: the formatted context of a non-empty record list contains one
    newline between consecutive records and, besides, only the newlines
    that the rendered fields themselves contain; so records whose fields
    have no line break give exactly one line each. *)
Theorem format_context_newlines (docs : list doc) :
  newlines (format_context docs) =
  (length docs - 1) + sum_list (map field_newlines docs).
Proof.
  unfold format_context.
  induction docs as [|d docs IH]; [done|].
  destruct docs as [|d' docs].
  - change (join nl (map format_line [d])) with (format_line d).
    rewrite newlines_format_line. cbn [map sum_list sum_list_with length]. unfold id. lia.
  - change (join nl (map format_line (d :: d' :: docs)))
      with (format_line d ++ nl ++ join nl (map format_line (d' :: docs))).
    rewrite !newlines_app, IH, newlines_format_line.
    change (newlines nl) with 1.
    cbn [map sum_list sum_list_with length]. unfold id. lia.
Qed.

(** ** The shape of reachable sessions *)

Section SessionEntries.

Variable cfg : deployment.
Hypothesis cfg_ok : deployment_ok cfg.

(** X20: between passes, of the two entries the script keeps in the
    session, either there is no exit flag and the history is absent (a
    new session) or a list of turns, or the exit flag is [True] and the
    history is gone.  So the flag is never stored as anything but [True],
    and history and exit flag never coexist. *)
Theorem exit_flag_and_history_never_coexist s :
  reachable cfg s ->
  (s !! "exited" = None /\
   (s !! "messages" = None \/ exists l, s !! "messages" = Some (SMessages l))) \/
  (s !! "exited" = Some (SBool true) /\ s !! "messages" = None).
Proof.
  induction 1 as [|s w ui Hreach IH].
  { left. split; [|left]; apply lookup_empty. }
  destruct (reachable_inv cfg cfg_ok s Hreach) as [Hok _].
  assert (Hins : forall l,
             exited_flag s = false ->
             <["messages" := SMessages l]> s !! "exited" = None /\
             exists l', <["messages" := SMessages l]> s !! "messages" =
                        Some (SMessages l')).
  { intros l Hflag. destruct IH as [[Hnone _]|[Hsome _]].
    - split; [by rewrite lookup_insert_ne|].
      exists l. apply lookup_insert_eq.
    - unfold exited_flag in Hflag. by rewrite Hsome in Hflag. }
  destruct (render_pass_session cfg cfg_ok w ui s Hok)
    as [[_ ->]|[Hflag [->|[->|(text & r & ->)]]]].
  - exact IH.
  - right. split; [apply lookup_singleton_eq|by apply lookup_singleton_ne].
  - left. destruct (Hins (history s) Hflag) as [? ?].
    split; [done|by right].
  - left.
    destruct (Hins (history s ++ [mkTurn user text; mkTurn assistant r])%list
                Hflag) as [? ?].
    split; [done|by right].
Qed.

End SessionEntries.

(** ** The submitted turn, call by call *)

Lemma appended_app t1 t2 :
  appended (t1 ++ t2) = (appended t1 ++ appended t2)%list.
Proof. apply omap_app. Qed.

Lemma retrieve_documents_calls w query m r m1 :
  retrieve_documents w query m = (r, m1) ->
  exists calls,
    trace m1 = (trace m ++ EvGenaiClient :: calls)%list /\
    appended calls = [].
Proof.
  unfold retrieve_documents, embed_text, get_genai_client, set_limit_k,
    get_limit_k. run.
  destruct (get_genai_client_result w) as [[]|e1]; simpl.
  - destruct (embed_content w _) as [[|[[|x v]|] rest]|e2]; simpl;
      try destruct (is_Exception _); simpl;
      try (intros [= <- <-]; simpl; rewrite <- ?app_assoc; simpl;
           eexists; split; reflexivity).
    destruct (qdrant_search w _) as [results|e3]; simpl;
      try destruct (is_Exception _); simpl;
      intros [= <- <-]; simpl; rewrite <- ?app_assoc; simpl;
      eexists; split; reflexivity.
  - destruct (is_Exception e1); simpl; intros [= <- <-]; simpl;
      rewrite <- ?app_assoc; simpl; eexists; split; reflexivity.
Qed.

Lemma stream_loop_calls (s : stream) :
  forall response m frags ending m',
    pull_all (stream_loop s response) m = (frags, ending, m') ->
    exists calls,
      trace m' = (trace m ++ calls)%list /\ appended calls = [].
Proof.
  induction s as [|item rest IH]; intros response m frags ending m'.
  - simpl. run. intros [= <- <- <-]. by exists [EvStreamRead].
  - simpl. run. destruct item as [[[|first others]]|e]; simpl.
    + intros [= <- <- <-]. by exists [EvStreamRead].
    + destruct (pull_all (stream_loop rest _) _) as [[ys e'] m''] eqn:Hrest.
      intros [= <- <- <-]. apply IH in Hrest as (calls & -> & Hcalls).
      simpl. exists (EvStreamRead :: calls). split; [|done].
      by rewrite <- app_assoc.
    + intros [= <- <- <-]. by exists [EvStreamRead].
Qed.

Lemma generate_answer_calls w query docs m frags ending m' :
  pull_all (generate_answer w query docs) m = (frags, ending, m') ->
  exists calls,
    trace m' = (trace m ++ calls)%list /\ appended calls = [].
Proof.
  unfold generate_answer, get_together_client. simpl.
  destruct (bool_decide (docs = [])); simpl.
  - intros [= <- <- <-]. exists []. by rewrite app_nil_r.
  - run. destruct (get_together_client_result w) as [[]|e1]; simpl;
      [|intros [= <- <- <-]; by exists [EvTogetherClient]].
    destruct (completions_create w _) as [s|e2]; simpl;
      [|intros [= <- <- <-]; simpl; rewrite <- app_assoc;
        eexists; split; reflexivity].
    intros Hpull.
    pose proof (stream_loop_calls s "") as Hloop.
    destruct (stream_loop s "") as [r]. simpl in Hloop.
    apply Hloop in Hpull as (calls & -> & Hcalls). simpl.
    rewrite <- !app_assoc. simpl.
    eexists. split; [reflexivity|]. simpl. exact Hcalls.
Qed.

(** The pipeline always hands a text back; it leaves the session alone,
    its first call builds the embedding client, and no call of its own
    appends to the history. *)
Lemma answer_turn_calls w query m :
  exists response_text m' calls,
    answer_turn w query m = (Returns response_text, m') /\
    session_state m' = session_state m /\
    trace m' = (trace m ++ EvGenaiClient :: calls)%list /\
    appended calls = [].
Proof.
  destruct (answer_turn_total w query m) as (r & m' & Hrun & Hs).
  exists r, m'. 
  assert (Hcalls : exists calls,
             trace m' = (trace m ++ EvGenaiClient :: calls)%list /\
             appended calls = []).
  { rewrite answer_turn_spec in Hrun.
    destruct (retrieve_documents w query m) as [[docs|e] m1] eqn:Hr;
      apply retrieve_documents_calls in Hr as (c1 & Ht1 & Hc1);
      [|injection Hrun as <- <-; eauto].
    assert (Hgen : exists c2,
               trace m' = (trace m1 ++ c2)%list /\ appended c2 = []).
    { destruct (pull_all (generate_answer w query docs) m1)
        as [[frags [[]|e]] m2] eqn:Hg;
        apply generate_answer_calls in Hg;
        injection Hrun as <- <-; exact Hg. }
    destruct Hgen as (c2 & -> & Hc2). rewrite Ht1.
    exists (c1 ++ c2)%list. split; [by rewrite <- app_assoc|].
    by rewrite appended_app, Hc1, Hc2. }
  destruct Hcalls as (calls & Ht & Hc). by exists calls.
Qed.

(** Lines 159-177 in one step, with the calls in their order. *)
Lemma submitted_branch_run w user_input m l :
  session_state m !! "messages" = Some (SMessages l) ->
  exists m0 response_text m1 m' calls,
    save_user_message user_input m = (Returns tt, m0) /\
    session_state m0 =
      <["messages" := SMessages (l ++ [mkTurn user user_input])]> (session_state m) /\
    trace m0 = (trace m ++ [EvHistoryAppend (mkTurn user user_input);
                            EvChatMessage "assistant";
                            EvSpinner "🔍 Mencari jawaban..."])%list /\
    answer_turn w user_input m0 = (Returns response_text, m1) /\
    session_state m1 = session_state m0 /\
    trace m1 = (trace m0 ++ EvGenaiClient :: calls)%list /\
    appended calls = [] /\
    submitted_branch w user_input m = (Raises (mkExn ClsRerun ""), m') /\
    session_state m' =
      <["messages" := SMessages (l ++ [mkTurn user user_input;
                                       mkTurn assistant response_text])]>
        (session_state m) /\
    trace m' = (trace m1 ++ [EvMarkdown (last_message_div response_text) true;
                             EvHistoryAppend (mkTurn assistant response_text)])%list.
Proof.
  intros H.
  pose proof (save_user_message_spec user_input m l H) as Hsave.
  set (m0 := mkMachine _ _ _ _) in Hsave.
  destruct (answer_turn_calls w user_input m0)
    as (r & m1 & calls & Hans & Hsess & Htrace & Hcalls).
  exists m0, r, m1. eexists. exists calls.
  split; [done|]. split; [done|].
  split; [subst m0; simpl; by rewrite <- !app_assoc|].
  split; [done|]. split; [done|]. split; [done|]. split; [done|].
  unfold submitted_branch.
  rewrite (bind_returns _ _ _ _ _ Hsave), (bind_returns _ _ _ _ _ Hans).
  unfold st_markdown, messages_append, st_rerun. run.
  unfold get_messages. simpl. rewrite Hsess. simpl.
  rewrite lookup_insert_eq. simpl. split; [reflexivity|].
  split; [by rewrite insert_insert_eq, <- app_assoc|].
  by rewrite <- !app_assoc.
Qed.

(** The iteration whose form delivers a text displays the form and enters
    the submitted branch. *)
Lemma loop_body_submit_exact w i text s l lk t0 r :
  s !! "messages" = Some (SMessages l) ->
  text <> "" ->
  loop_body w (FormSubmit i text) i (mkMachine s lk t0 r) =
  submitted_branch w text (mkMachine s lk (t0 ++ form_events l i) r).
Proof.
  intros Hl Htext.
  destruct (submitted_branch_raises w text
              (mkMachine s lk (t0 ++ form_events l i) r) l Hl) as [m' Hraise].
  rewrite Hraise.
  assert (Hform : emits s
            (messages <- get_messages ;;
             emit (EvForm ("chat_form_" ++ pretty i)) ;;
             user_input <- st_text_input (FormSubmit i text) i ;;
             submitted <- st_form_submit_button (FormSubmit i text) i ;;
             (if bool_decide (i = length messages / 2)
              then st_markdown (autofocus_script i) true else ret tt) ;;
             ret (user_input, submitted))
            (text, true) (form_events l i)).
  { unfold st_text_input, st_form_submit_button, st_markdown.
    eapply emits_eq.
    { eapply emits_bind; [by apply emits_get_messages|].
      eapply emits_bind; [apply emits_emit|].
      eapply emits_bind; [eapply emits_bind; [apply emits_emit|apply emits_ret]|].
      eapply emits_bind; [eapply emits_bind; [apply emits_emit|apply emits_ret]|].
      eapply emits_bind; [eapply emits_if; [apply emits_emit|apply emits_ret]|].
      rewrite !(bool_decide_eq_true_2 (i = i)) by done.
      apply emits_ret. }
    unfold form_events. simpl. by rewrite app_nil_r. }
  specialize (Hform lk t0 r).
  unfold loop_body.
  unfold bind in Hform |- *.
  destruct (get_messages (mkMachine s lk t0 r)) as [[l0|e0] ma]; [|done].
  destruct (emit _ ma) as [[[]|e1] mb]; [|done].
  destruct (st_text_input _ _ mb) as [[ti|e2] mc]; [|done].
  destruct (st_form_submit_button _ _ mc) as [[sb|e3] md]; [|done].
  destruct ((if bool_decide (i = length l0 / 2)
             then st_markdown (autofocus_script i) true else ret tt) md)
    as [[[]|e4] me]; [|done].
  unfold ret in Hform. injection Hform as -> -> ->.
  simpl. rewrite (bool_decide_eq_false_2 (text = "")) by done. simpl.
  by rewrite Hraise.
Qed.

Lemma for_range_submit_exact w i text s l rest :
  s !! "messages" = Some (SMessages l) ->
  text <> "" ->
  forall before lk t0 r,
    i ∉ before ->
    for_range (before ++ i :: rest) (loop_body w (FormSubmit i text))
      (mkMachine s lk t0 r) =
    submitted_branch w text
      (mkMachine s lk
         (t0 ++ flat_map (slot_events l) before ++ form_events l i) r).
Proof.
  intros Hl Htext before. induction before as [|j before IH];
    intros lk t0 r Hnotin; cbn [app for_range flat_map].
  - destruct (submitted_branch_raises w text
                (mkMachine s lk (t0 ++ form_events l i) r) l Hl)
      as [m' Hraise].
    rewrite Hraise. apply bind_raises.
    by rewrite (loop_body_submit_exact w i text s l lk t0 r Hl Htext).
  - apply not_elem_of_cons in Hnotin as [Hne Hnotin].
    assert (Hidle : submits_at (FormSubmit i text) j = None).
    { simpl. by rewrite (bool_decide_eq_false_2 (i = j)). }
    rewrite (bind_returns _ _ _ _ _
               (emits_loop_body_idle w _ j s l Hl Hidle lk t0 r)).
    rewrite (IH lk _ r Hnotin). by rewrite <- !app_assoc.
Qed.

Lemma seq_split i n :
  i <= n -> seq 0 (n + 1) = (seq 0 i ++ i :: seq (S i) (n - i))%list.
Proof.
  intros Hi. replace (n + 1) with (i + S (n - i)) by lia.
  by rewrite seq_app.
Qed.

Lemma conversation_loop_submit_exact w i text s l lk t0 r :
  s !! "messages" = Some (SMessages l) ->
  text <> "" ->
  i <= length l / 2 ->
  conversation_loop w (FormSubmit i text) (mkMachine s lk t0 r) =
  submitted_branch w text
    (mkMachine s lk
       (t0 ++ flat_map (slot_events l) (seq 0 i) ++ form_events l i) r).
Proof.
  intros Hl Htext Hi. unfold conversation_loop.
  rewrite (bind_returns _ _ _ _ _ (emits_get_messages s l Hl lk t0 r)).
  rewrite app_nil_r, (seq_split i _ Hi).
  apply for_range_submit_exact; [done..|].
  intros Hin. apply elem_of_seq in Hin. lia.
Qed.

Lemma appended_slots l indices :
  appended (flat_map (slot_events l) indices) = [].
Proof.
  induction indices as [|i rest IH]; [done|].
  cbn [flat_map]. rewrite appended_app, IH, app_nil_r.
  unfold slot_events, turn_events. rewrite !appended_app.
  destruct (l !! (i * 2)), (l !! (i * 2 + 1));
    repeat case_bool_decide; reflexivity.
Qed.

Lemma appended_form_events l i : appended (form_events l i) = [].
Proof. unfold form_events. by case_bool_decide. Qed.

(** The pass in which form [i] delivers a text: everything up to the
    submitted branch. *)
Lemma page_submit_exact cfg w i text s :
  deployment_ok cfg ->
  exited_flag s = false ->
  messages_ok s ->
  i <= length (history s) / 2 ->
  text <> "" ->
  exists url key,
    page cfg w (FormSubmit i text) (mkMachine s None [] []) =
    submitted_branch w text
      (mkMachine (<["messages" := SMessages (history s)]> s) None
         (EvQdrantClient url key true 120%float ::
          page_header ++
          flat_map (slot_events (history s)) (seq 0 i) ++
          form_events (history s) i)
         []).
Proof.
  intros Hcfg Hflag Hok Hi Htext. unfold page.
  destruct (environment_setup_run cfg (mkMachine s None [] []) Hcfg)
    as (url & key & Hsetup).
  exists url, key.
  rewrite (bind_returns _ _ _ _ _ Hsetup). simpl.
  rewrite (bind_returns _ _ _ _ _ (emits_exit_state_handler s Hflag _ _ _)).
  assert (Hconfig : emits s page_config tt page_header).
  { unfold page_config, st_markdown.
    eapply emits_eq; [repeat emits_step|done]. }
  rewrite (bind_returns _ _ _ _ _ (Hconfig _ _ _)).
  erewrite bind_returns by by apply initialize_session_state_spec.
  simpl.
  set (s' := <["messages" := SMessages (history s)]> s).
  assert (Hl : s' !! "messages" = Some (SMessages (history s)))
    by apply lookup_insert_eq.
  pose proof (conversation_loop_submit_exact w i text s' (history s) None
                ([EvQdrantClient url key true 120%float] ++ page_header) []
                Hl Htext Hi) as Hloop.
  destruct (submitted_branch_raises w text
              (mkMachine s' None
                 (([EvQdrantClient url key true 120%float] ++ page_header) ++
                  flat_map (slot_events (history s)) (seq 0 i) ++
                  form_events (history s) i) []) (history s) Hl)
    as [m' Hraise].
  rewrite Hraise in Hloop.
  simpl in Hloop |- *.
  rewrite (bind_raises _ _ _ _ _ Hloop). by rewrite <- Hraise.
Qed.

Section SubmittedTurn.

Variable cfg : deployment.
Hypothesis cfg_ok : deployment_ok cfg.

(** C1: in every session the page can reach, the history alternates
    (user turns at even indices, assistant turns at odd ones) and is of
    even length between passes.  Submitting a non-empty text in any
    displayed form makes the pass run the submitted branch, and the calls
    of the pass are, in this order: calls that append nothing to the
    history; the append of the user turn, after which the history ends
    with that (still unanswered, yet alternating) user turn; the opening
    of the assistant's message; the calls of the pipeline, which start
    with the construction of the embedding client, append nothing and
    leave the session alone; the display of the text the pipeline handed
    back, an answer or the apology; the append of that text as the
    assistant turn.  So the pass appends exactly these two turns, the
    user turn before the pipeline runs and the assistant turn after it,
    and the session it leaves is the old one with the two turns at the
    end of its history. *)
Theorem submitted_turn_appends_user_then_assistant s :
  reachable cfg s ->
  (alternating (history s) /\ Nat.even (length (history s)) = true) /\
  forall w i text,
    exited_flag s = false ->
    i <= length (history s) / 2 ->
    text <> "" ->
    exists m_branch m0 response_text m1 m' calls,
      page cfg w (FormSubmit i text) (mkMachine s None [] []) =
        submitted_branch w text m_branch /\
      history (session_state m_branch) = history s /\
      appended (trace m_branch) = [] /\
      save_user_message text m_branch = (Returns tt, m0) /\
      history (session_state m0) = (history s ++ [mkTurn user text])%list /\
      alternating (history (session_state m0)) /\
      trace m0 =
        (trace m_branch ++ [EvHistoryAppend (mkTurn user text);
                            EvChatMessage "assistant";
                            EvSpinner "🔍 Mencari jawaban..."])%list /\
      answer_turn w text m0 = (Returns response_text, m1) /\
      session_state m1 = session_state m0 /\
      trace m1 = (trace m0 ++ EvGenaiClient :: calls)%list /\
      appended calls = [] /\
      submitted_branch w text m_branch = (Raises (mkExn ClsRerun ""), m') /\
      trace m' =
        (trace m1 ++ [EvMarkdown (last_message_div response_text) true;
                      EvHistoryAppend (mkTurn assistant response_text)])%list /\
      session_state m' =
        <["messages" := SMessages (history s ++ [mkTurn user text;
                                                 mkTurn assistant response_text])]> s /\
      render_pass cfg w (FormSubmit i text) s =
        mkPassResult (session_state m') (trace m') RerunRequested /\
      appended (pass_trace (render_pass cfg w (FormSubmit i text) s)) =
        [mkTurn user text; mkTurn assistant response_text].
Proof.
  intros Hreach.
  destruct (reachable_inv cfg cfg_ok s Hreach) as (Hok & Halt & Heven & _).
  split; [done|]. intros w i text Hflag Hi Htext.
  destruct (page_submit_exact cfg w i text s cfg_ok Hflag Hok Hi Htext)
    as (url & key & Hpage).
  set (m_branch := mkMachine (<["messages" := _]> s) None _ []) in Hpage.
  destruct (submitted_branch_run w text m_branch _
              (lookup_messages_insert s (history s)))
    as (m0 & r & m1 & m' & calls & Hsave & Hs0 & Ht0 & Hans & Hs1 & Ht1 &
        Hcalls & Hrun & Hs' & Ht').
  simpl in Hs0, Hs'. rewrite insert_insert_eq in Hs0, Hs'.
  assert (Hbefore : appended (trace m_branch) = []).
  { subst m_branch. cbn [trace].
    change (EvQdrantClient url key true 120%float ::
            page_header ++ ?rest)%list
      with ([EvQdrantClient url key true 120%float] ++ page_header ++ rest)%list.
    by rewrite !appended_app, appended_slots, appended_form_events. }
  assert (Hh0 : history (session_state m0) = (history s ++ [mkTurn user text])%list)
    by by rewrite Hs0, history_insert.
  assert (Hpass : render_pass cfg w (FormSubmit i text) s =
                  mkPassResult (session_state m') (trace m') RerunRequested).
  { unfold render_pass. by rewrite Hpage, Hrun. }
  exists m_branch, m0, r, m1, m', calls.
  split; [done|]. split; [apply history_insert|]. split; [done|].
  split; [done|]. split; [done|].
  split; [rewrite Hh0; by apply alternating_app_user|].
  split; [done|]. split; [done|]. split; [done|]. split; [done|].
  split; [done|]. split; [done|]. split; [done|]. split; [done|].
  split; [done|].
  rewrite Hpass. cbn [pass_trace]. rewrite Ht', Ht1, Ht0.
  change (EvGenaiClient :: calls) with ([EvGenaiClient] ++ calls)%list.
  rewrite !appended_app, Hbefore, Hcalls. reflexivity.
Qed.

End SubmittedTurn.

(** ** More runs on concrete sessions *)

Lemma embed_text_handles_exceptions_witness :
  embed_text world_embed_down "halo" (machine0 ∅) =
    (Returns None, machine_embed_down) /\
  raised machine_embed_down <> raised (machine0 ∅) /\
  exists e,
    raised machine_embed_down = (raised (machine0 ∅) ++ [e])%list /\
    if is_Exception e
    then @Returns (option vector) None = Returns None /\
         exists t, trace machine_embed_down =
                   (t ++ [EvError ("⚠️ Gagal membuat embedding: " ++ exn_str e)])%list
    else @Returns (option vector) None = Raises e.
Proof.
  assert (H1 : embed_text world_embed_down "halo" (machine0 ∅) =
               (Returns None, machine_embed_down)) by (vm_compute; reflexivity).
  assert (H2 : raised machine_embed_down <> raised (machine0 ∅))
    by discriminate.
  split; [exact H1|]. split; [exact H2|].
  exact (embed_text_handles_exceptions world_embed_down "halo" (machine0 ∅)
           (Returns None) machine_embed_down H1 H2).
Defined.

Lemma embed_text_returns_first_embedding_witness :
  embed_text world_ok "halo" (machine0 ∅) =
    (Returns (Some [1%float; 0%float]), machine_embed_ok) /\
  raised machine_embed_ok = raised (machine0 ∅) /\
  exists first rest,
    embed_content world_ok (embed_request_for "halo") = Returns (first :: rest) /\
    Returns (Some [1%float; 0%float]) = Returns first /\
    trace machine_embed_ok =
      (trace (machine0 ∅) ++ [EvGenaiClient; EvEmbed (embed_request_for "halo")])%list.
Proof.
  assert (H1 : embed_text world_ok "halo" (machine0 ∅) =
               (Returns (Some [1%float; 0%float]), machine_embed_ok))
    by (vm_compute; reflexivity).
  split; [exact H1|]. split; [reflexivity|].
  exact (embed_text_returns_first_embedding world_ok "halo" (machine0 ∅)
           _ machine_embed_ok H1 eq_refl).
Defined.

Lemma retrieve_documents_is_contained_witness :
  retrieve_documents world_search_down "halo" (machine0 ∅) =
    (Returns [], machine_search_down) /\
  session_state machine_search_down = session_state (machine0 ∅) /\
  search_calls (trace machine_search_down) <=
    search_calls (trace (machine0 ∅)) + 1 /\
  completion_calls (trace machine_search_down) =
    completion_calls (trace (machine0 ∅)).
Proof.
  assert (H1 : retrieve_documents world_search_down "halo" (machine0 ∅) =
               (Returns [], machine_search_down)) by (vm_compute; reflexivity).
  split; [exact H1|].
  destruct (retrieve_documents_is_contained world_search_down "halo"
              (machine0 ∅) _ machine_search_down H1) as (Hs & Hn & Hc & _).
  exact (conj Hs (conj Hn Hc)).
Defined.

Lemma retrieve_documents_search_failure_witness :
  embed_text world_search_down "halo" (machine0 ∅) =
    (Returns (Some [1%float; 0%float]), machine_embed_ok) /\
  qdrant_search world_search_down (search_request_for (Some [1%float; 0%float]))
    = Raises timeout_error /\
  is_Exception timeout_error = true /\
  retrieve_documents world_search_down "halo" (machine0 ∅) =
    (Returns [], machine_search_down).
Proof.
  assert (H1 : embed_text world_search_down "halo" (machine0 ∅) =
               (Returns (Some [1%float; 0%float]), machine_embed_ok))
    by (vm_compute; reflexivity).
  split; [exact H1|]. split; [reflexivity|]. split; [reflexivity|].
  exact (retrieve_documents_search_failure world_search_down "halo"
           (machine0 ∅) 1%float [0%float] machine_embed_ok timeout_error
           H1 eq_refl eq_refl).
Defined.

Lemma retrieve_documents_returns_payloads_witness :
  embed_text world_ok "halo" (machine0 ∅) =
    (Returns (Some [1%float; 0%float]), machine_embed_ok) /\
  qdrant_search world_ok (search_request_for (Some [1%float; 0%float])) =
    Returns [mkScoredPoint serum_a 1%float []; mkScoredPoint serum_b 1%float []] /\
  exists docs,
    retrieve_documents world_ok "halo" (machine0 ∅) =
      (Returns docs, machine_search_ok) /\
    length docs = 2 /\
    docs !! 1 = Some serum_b.
Proof.
  assert (H1 : embed_text world_ok "halo" (machine0 ∅) =
               (Returns (Some [1%float; 0%float]), machine_embed_ok))
    by (vm_compute; reflexivity).
  split; [exact H1|]. split; [reflexivity|].
  destruct (retrieve_documents_returns_payloads world_ok "halo" (machine0 ∅)
              1%float [0%float] machine_embed_ok _ H1 eq_refl)
    as (docs & Hrun & Hlen & Hlookup).
  exists docs. split; [exact Hrun|]. split; [exact Hlen|]. exact (Hlookup 1).
Defined.

Lemma generate_answer_follows_the_stream_witness :
  ([serum_a; serum_b] <> [] /\
   get_together_client_result world_stream_breaks = Returns tt /\
   completions_create world_stream_breaks
     (completion_request_for world_stream_breaks "halo" [serum_a; serum_b]) =
   Returns [Returns (text_chunk (Some "Serum A ")); Raises timeout_error]) /\
  exists m',
    pull_all (generate_answer world_stream_breaks "halo" [serum_a; serum_b])
      machine_after_search =
    (["Serum A "], Raises timeout_error, m') /\
    session_state m' = session_state machine_after_search.
Proof.
  assert (H1 : [serum_a; serum_b] <> []) by discriminate.
  split; [by repeat split|].
  destruct (generate_answer_follows_the_stream world_stream_breaks "halo"
              [serum_a; serum_b]
              [Returns (text_chunk (Some "Serum A ")); Raises timeout_error]
              machine_after_search H1 eq_refl eq_refl)
    as (m' & Hrun & Hs & _).
  exists m'. split; [exact Hrun|exact Hs].
Defined.

Lemma chunk_without_choice_discards_answer_witness :
  (retrieve_documents world_choiceless_chunk "halo" machine_after_save =
     (Returns [serum_a; serum_b], machine_after_search) /\
   [serum_a; serum_b] <> [] /\
   get_together_client_result world_choiceless_chunk = Returns tt /\
   completions_create world_choiceless_chunk
     (completion_request_for world_choiceless_chunk "halo" [serum_a; serum_b]) =
   Returns [Returns (text_chunk (Some "Serum A "));
            Returns (mkChunk []);
            Returns (text_chunk (Some "cocok."))] /\
   Returns (mkChunk []) ∈
     [Returns (text_chunk (Some "Serum A "));
      Returns (mkChunk []);
      Returns (text_chunk (Some "cocok."))]) /\
  fst (answer_turn world_choiceless_chunk "halo" machine_after_save) =
    Returns apology_message.
Proof.
  assert (H1 : retrieve_documents world_choiceless_chunk "halo"
                 machine_after_save =
               (Returns [serum_a; serum_b], machine_after_search))
    by (vm_compute; reflexivity).
  assert (H2 : [serum_a; serum_b] <> []) by discriminate.
  assert (H5 : Returns (mkChunk []) ∈
               [Returns (text_chunk (Some "Serum A "));
                Returns (mkChunk []);
                Returns (text_chunk (Some "cocok."))])
    by (apply list_elem_of_further, list_elem_of_here).
  split; [by repeat split|].
  exact (chunk_without_choice_discards_answer world_choiceless_chunk "halo"
           machine_after_save [serum_a; serum_b] machine_after_search _
           H1 H2 eq_refl eq_refl H5).
Defined.

Lemma answer_turn_without_records_witness :
  retrieve_documents world_search_down "halo" (machine0 ∅) =
    (Returns [], machine_search_down) /\
  answer_turn world_search_down "halo" (machine0 ∅) =
    (Returns no_info_message, machine_search_down) /\
  completion_calls (trace machine_search_down) =
    completion_calls (trace (machine0 ∅)).
Proof.
  assert (H1 : retrieve_documents world_search_down "halo" (machine0 ∅) =
               (Returns [], machine_search_down)) by (vm_compute; reflexivity).
  split; [exact H1|].
  exact (answer_turn_without_records world_search_down "halo" (machine0 ∅)
           machine_search_down H1).
Defined.

Lemma session_one_pair_reachable :
  reachable deployment_configured session_one_pair.
Proof.
  change session_one_pair
    with (pass_session
            (render_pass deployment_configured world_ok (FormSubmit 0 "halo") ∅)).
  apply reachable_pass, reachable_new.
Qed.

Lemma idle_pass_renders_the_history_witness :
  (deployment_ok deployment_configured /\
   exited_flag session_one_pair = false /\
   messages_ok session_one_pair /\
   (forall i, i <= length (history session_one_pair) / 2 ->
              submits_at (FormSubmit 1 "") i = None) /\
   FormSubmit 1 "" <> ExitPressed) /\
  exists url key,
    render_pass deployment_configured world_ok (FormSubmit 1 "") session_one_pair =
    mkPassResult session_one_pair
      (EvQdrantClient url key true 120%float :: view (history session_one_pair))
      Completed.
Proof.
  assert (H4 : forall i, i <= length (history session_one_pair) / 2 ->
                         submits_at (FormSubmit 1 "") i = None).
  { intros i _. simpl. by rewrite andb_false_r. }
  assert (H5 : FormSubmit 1 "" <> ExitPressed) by discriminate.
  split.
  { split; [exact deployment_configured_ok|]. split; [reflexivity|].
    split; [exact I|]. split; [exact H4|exact H5]. }
  exact (idle_pass_renders_the_history deployment_configured world_ok
           (FormSubmit 1 "") session_one_pair deployment_configured_ok
           eq_refl I H4 H5).
Defined.

Lemma reachable_pass_never_crashes_witness :
  deployment_ok deployment_configured /\
  reachable deployment_configured session_one_pair /\
  (pass_ended (render_pass deployment_configured world_stream_breaks
                 (FormSubmit 1 "lagi") session_one_pair) = Completed \/
   pass_ended (render_pass deployment_configured world_stream_breaks
                 (FormSubmit 1 "lagi") session_one_pair) = Stopped \/
   pass_ended (render_pass deployment_configured world_stream_breaks
                 (FormSubmit 1 "lagi") session_one_pair) = RerunRequested).
Proof.
  split; [exact deployment_configured_ok|].
  split; [exact session_one_pair_reachable|].
  exact (reachable_pass_never_crashes deployment_configured
           deployment_configured_ok session_one_pair world_stream_breaks
           (FormSubmit 1 "lagi") session_one_pair_reachable).
Defined.

Lemma history_is_append_only_witness :
  deployment_ok deployment_configured /\
  reachable deployment_configured session_one_pair /\
  (history session_one_pair `prefix_of`
     history (pass_session
                (render_pass deployment_configured world_stream_breaks
                   (FormSubmit 0 "lagi") session_one_pair)) \/
   pass_session
     (render_pass deployment_configured world_stream_breaks
        (FormSubmit 0 "lagi") session_one_pair) = {["exited" := SBool true]}).
Proof.
  split; [exact deployment_configured_ok|].
  split; [exact session_one_pair_reachable|].
  exact (history_is_append_only deployment_configured
           deployment_configured_ok session_one_pair world_stream_breaks
           (FormSubmit 0 "lagi") session_one_pair_reachable).
Defined.

Lemma missing_secret_stops_every_pass_witness :
  ("together_api_key" ∈
     ["google_api_key"; "qdrant_api_key"; "together_api_key"; "QDRANT_URL"] /\
   secrets deployment_without_together_key !! "together_api_key" = None) /\
  exists missing,
    missing ∈ ["google_api_key"; "qdrant_api_key"; "together_api_key";
               "QDRANT_URL"] /\
    secrets deployment_without_together_key !! missing = None /\
    render_pass deployment_without_together_key world_ok (FormSubmit 0 "halo")
      session_one_pair =
    mkPassResult session_one_pair []
      (Crashed (mkExn ClsException
                  (secret_error deployment_without_together_key missing))).
Proof.
  assert (H1 : "together_api_key" ∈
               ["google_api_key"; "qdrant_api_key"; "together_api_key";
                "QDRANT_URL"])
    by (do 2 apply list_elem_of_further; apply list_elem_of_here).
  split; [split; [exact H1|reflexivity]|].
  exact (missing_secret_stops_every_pass deployment_without_together_key
           world_ok (FormSubmit 0 "halo") session_one_pair
           "together_api_key" H1 eq_refl).
Defined.


Lemma format_context_app_witness :
  ([serum_a] <> [] /\ [serum_b; serum_a] <> []) /\
  format_context ([serum_a] ++ [serum_b; serum_a]) =
  format_context [serum_a] ++ nl ++ format_context [serum_b; serum_a].
Proof.
  assert (H1 : [serum_a] <> []) by discriminate.
  assert (H2 : [serum_b; serum_a] <> []) by discriminate.
  split; [exact (conj H1 H2)|].
  exact (format_context_app [serum_a] [serum_b; serum_a] H1 H2).
Defined.

Lemma exit_flag_and_history_never_coexist_witness :
  deployment_ok deployment_configured /\
  reachable deployment_configured session_one_pair /\
  ((session_one_pair !! "exited" = None /\
    (session_one_pair !! "messages" = None \/
     exists l, session_one_pair !! "messages" = Some (SMessages l))) \/
   (session_one_pair !! "exited" = Some (SBool true) /\
    session_one_pair !! "messages" = None)).
Proof.
  split; [exact deployment_configured_ok|].
  split; [exact session_one_pair_reachable|].
  exact (exit_flag_and_history_never_coexist deployment_configured
           deployment_configured_ok session_one_pair
           session_one_pair_reachable).
Defined.


Lemma idle_pass_offers_a_form_per_pair_witness :
  (deployment_ok deployment_configured /\
   exited_flag session_one_pair = false /\
   messages_ok session_one_pair /\
   (forall i, i <= length (history session_one_pair) / 2 ->
              submits_at NoInteraction i = None) /\
   NoInteraction <> ExitPressed) /\
  form_keys
    (rendered (render_pass deployment_configured world_ok NoInteraction
                 session_one_pair)) =
  ["chat_form_0"; "chat_form_1"].
Proof.
  assert (H4 : forall i, i <= length (history session_one_pair) / 2 ->
                         submits_at NoInteraction i = None) by done.
  assert (H5 : NoInteraction <> ExitPressed) by discriminate.
  split.
  { split; [exact deployment_configured_ok|]. split; [reflexivity|].
    split; [exact I|]. split; [exact H4|exact H5]. }
  exact (proj1 (idle_pass_offers_a_form_per_pair deployment_configured
                  world_ok NoInteraction session_one_pair
                  deployment_configured_ok eq_refl I H4 H5)).
Defined.

Lemma submitted_turn_appends_user_then_assistant_witness :
  deployment_ok deployment_configured /\
  reachable deployment_configured ∅ /\
  exited_flag ∅ = false /\
  0 <= length (history ∅) / 2 /\
  "halo" <> "" /\
  exists response_text,
    pass_session
      (render_pass deployment_configured world_ok (FormSubmit 0 "halo") ∅) =
    <["messages" := SMessages [mkTurn user "halo";
                               mkTurn assistant response_text]]> ∅ /\
    appended
      (pass_trace
         (render_pass deployment_configured world_ok (FormSubmit 0 "halo") ∅)) =
    [mkTurn user "halo"; mkTurn assistant response_text].
Proof.
  split; [exact deployment_configured_ok|].
  split; [apply reachable_new|]. split; [reflexivity|].
  split; [simpl; lia|]. split; [discriminate|].
  destruct (submitted_turn_appends_user_then_assistant deployment_configured
              deployment_configured_ok ∅ (reachable_new _))
    as [_ Hsubmit].
  destruct (Hsubmit world_ok 0 "halo" eq_refl (Nat.le_0_l _)
              ltac:(discriminate))
    as (mb & m0 & r & m1 & m' & calls & _ & _ & _ & _ & _ & _ & _ & _ & _ &
        _ & _ & _ & _ & Hs' & Hpass & Happ).
  exists r. split; [by rewrite Hpass|exact Happ].
Defined.
